(** * A shallow embedding of [app/main.py]

    The service is a FastAPI application with five routes ([/], [/health],
    [/api/insert], [/api/query], [/api/upload]) and one startup hook.  It
    owns one global, [rag_instance], and delegates all retrieval work to
    two external libraries (LightRAG and RAG-Anything).

    Conventions of the embedding:
    - a Python [str] is a [string]; one character of the model stands for
      one code point, so [String.length] is Python's [len];
    - [bytes] is a list of [Byte.byte];
    - a dict used as a map is a [gmap]; a dict literal returned as a JSON
      body is an association list, in the order the source writes it;
    - the external libraries are a record of state-passing functions
      ([Library]); they may raise any Python exception and may change the
      disk, the environment and their own stores, but they cannot reach
      the module's globals;
    - the handlers are written in a state-and-exception monad over
      [World]; [try ... except Exception] is the combinator [try_except];
    - every effect is also appended to a ghost [trace], so that the order
      of effects can be stated;
    - requests are served one at a time: a handler runs to its end
      before the next one starts. *)

From Stdlib Require Import ZArith String Ascii.
From Stdlib.Strings Require Import Byte.
From stdpp Require Import base option list strings gmap.

Open Scope string_scope.
Open Scope list_scope.

(** ** Python values of the model *)

Definition bytes := list byte.

(** An exception object in flight: its class name, whether the class
    derives from [Exception] (as opposed to [BaseException] only, like
    [KeyboardInterrupt] or [asyncio.CancelledError]), and [str(e)]. *)
Record PyExc := mkExc {
  exc_class : string;
  exc_is_Exception : bool;
  exc_str : string
}.

(** The JSON values the handlers put in their bodies. *)
Inductive jvalue :=
| JStr (s : string)
| JInt (z : Z)
| JBool (b : bool).

Definition dict := list (string * jvalue).

Fixpoint dict_get (d : dict) (k : string) : option jvalue :=
  match d with
  | [] => None
  | (k', v) :: d' => if decide (k' = k) then Some v else dict_get d' k
  end.

(** [s[:n]] *)
Definition slice_to (n : nat) (s : string) : string := substring 0 n s.

(** ** pathlib (PurePosixPath) *)

Fixpoint split_slash (s : string) : list string :=
  match s with
  | EmptyString => [EmptyString]
  | String c s' =>
      if Ascii.eqb c "/" then EmptyString :: split_slash s'
      else match split_slash s' with
           | [] => [String c EmptyString]
           | x :: xs => String c x :: xs
           end
  end.

Fixpoint leading_slashes (s : string) : nat :=
  match s with
  | EmptyString => 0
  | String c s' => if Ascii.eqb c "/" then S (leading_slashes s') else 0
  end.

Fixpoint join_slash (l : list string) : string :=
  match l with
  | [] => ""
  | [x] => x
  | x :: l' => x +:+ "/" +:+ join_slash l'
  end.

(** A parsed path: the root ([""] for a relative path, ["/"], or ["//"]
    for exactly two leading slashes) and the components.  Empty and ["."]
    components are dropped at parsing, [".."] is kept. *)
Record PurePath := mkPath {
  root : string;
  parts : list string
}.

(** [Path(s)] *)
Definition Path (s : string) : PurePath :=
  {| root := match leading_slashes s with
             | 0 => ""
             | 2 => "//"
             | _ => "/"
             end;
     parts := filter (λ c, c ≠ "" ∧ c ≠ ".") (split_slash s) |}.

(** [p / s]: an absolute right operand replaces the left one. *)
Definition joinpath (p : PurePath) (s : string) : PurePath :=
  let q := Path s in
  if decide (root q = "") then {| root := root p; parts := parts p ++ parts q |}
  else q.

(** [str(p)] *)
Definition str_path (p : PurePath) : string :=
  match root p, parts p with
  | EmptyString, [] => "."
  | r, ps => r +:+ join_slash ps
  end.

(** ** The disk

    A file system without symbolic links, permissions or quotas: a finite
    map from resolved absolute paths (component lists, root first) to
    nodes.  The root directory always exists. *)

Inductive node :=
| NDir
| NFile (data : bytes).

Inductive errno := ENOENT | ENOTDIR | EEXIST | EISDIR.

Definition lookup_node (fs : gmap (list string) node) (k : list string) : option node :=
  match k with
  | [] => Some NDir
  | _ => fs !! k
  end.

(** Path resolution: every component is looked up in a directory that
    must exist; [".."] goes to the parent (the root is its own parent).
    What the last component names is left to the caller. *)
Fixpoint walk (fs : gmap (list string) node) (cur cs : list string) : errno + list string :=
  match cs with
  | [] => inr cur
  | c :: rest =>
      match lookup_node fs cur with
      | Some NDir => walk fs (if decide (c = "..") then removelast cur else cur ++ [c]) rest
      | Some (NFile _) => inl ENOTDIR
      | None => inl ENOENT
      end
  end.

Definition resolve (cwd : list string) (fs : gmap (list string) node) (p : PurePath)
  : errno + list string :=
  walk fs (if decide (root p = "") then cwd else []) (parts p).

(** [os.mkdir(p)] *)
Definition os_mkdir (cwd : list string) (p : PurePath) (fs : gmap (list string) node)
  : errno + gmap (list string) node :=
  match resolve cwd fs p with
  | inl e => inl e
  | inr k =>
      match lookup_node fs k with
      | Some _ => inl EEXIST
      | None => inr (<[k := NDir]> fs)
      end
  end.

(** [p.is_dir()] *)
Definition is_dir (cwd : list string) (p : PurePath) (fs : gmap (list string) node) : bool :=
  match resolve cwd fs p with
  | inr k => match lookup_node fs k with Some NDir => true | _ => false end
  | inl _ => false
  end.

(** [p.mkdir(parents=False, exist_ok=True)] *)
Definition mkdir_exist_ok (cwd : list string) (p : PurePath) (fs : gmap (list string) node)
  : errno + gmap (list string) node :=
  match os_mkdir cwd p fs with
  | inr fs' => inr fs'
  | inl ENOENT => inl ENOENT
  | inl e => if is_dir cwd p fs then inr fs else inl e
  end.

(** [p.mkdir(parents=True, exist_ok=True)], as pathlib writes it: try
    [os.mkdir]; on [FileNotFoundError] create the parent the same way and
    try once more; on any other [OSError] succeed iff the path is already
    a directory.  [rparts] are the components of the path, last one
    first, so that its tail is the [parent]; a path without components
    is its own parent. *)
Fixpoint mkdir_rec (cwd : list string) (r : string) (rparts : list string)
    (fs : gmap (list string) node) : errno + gmap (list string) node :=
  let p := {| root := r; parts := rev rparts |} in
  match os_mkdir cwd p fs with
  | inr fs' => inr fs'
  | inl ENOENT =>
      match rparts with
      | [] => inl ENOENT
      | _ :: rparent =>
          match mkdir_rec cwd r rparent fs with
          | inl e => inl e
          | inr fs1 => mkdir_exist_ok cwd p fs1
          end
      end
  | inl e => if is_dir cwd p fs then inr fs else inl e
  end.

Definition Path_mkdir (cwd : list string) (p : PurePath) (fs : gmap (list string) node)
  : errno + gmap (list string) node :=
  mkdir_rec cwd (root p) (rev (parts p)) fs.

(** [open(p, "wb")]: creates or truncates; the handle is the resolved
    key. *)
Definition os_open_wb (cwd : list string) (p : PurePath) (fs : gmap (list string) node)
  : errno + (list string * gmap (list string) node) :=
  match resolve cwd fs p with
  | inl e => inl e
  | inr k =>
      match lookup_node fs k with
      | Some NDir => inl EISDIR
      | _ => inr (k, <[k := NFile []]> fs)
      end
  end.

(** [f.write(data)] on a handle opened by [os_open_wb] *)
Definition os_write (k : list string) (data : bytes) (fs : gmap (list string) node)
  : gmap (list string) node :=
  <[k := NFile data]> fs.

(** The [OSError] subclass Python raises for an error number; all four
    derive from [Exception]. *)
Definition OSError (e : errno) (path : string) : PyExc :=
  match e with
  | ENOENT =>
      mkExc "FileNotFoundError" true
        ("[Errno 2] No such file or directory: '" +:+ path +:+ "'")
  | ENOTDIR =>
      mkExc "NotADirectoryError" true ("[Errno 20] Not a directory: '" +:+ path +:+ "'")
  | EEXIST =>
      mkExc "FileExistsError" true ("[Errno 17] File exists: '" +:+ path +:+ "'")
  | EISDIR =>
      mkExc "IsADirectoryError" true ("[Errno 21] Is a directory: '" +:+ path +:+ "'")
  end.

(** ** Module globals (lines 22-50)

    The configuration is read from the environment once, at import.
    [os.getenv(k)] is [None] for an unset variable, so the three required
    values are optional strings.  [dim] stands for
    [int(os.getenv("EMBEDDING_DIM", "1536"))] and [available] for the
    outcome of the guarded import of the two libraries. *)

Record Config := {
  WORKING_DIR : string;
  OPENROUTER_API_KEY : option string;
  OPENROUTER_BASE_URL : string;
  LLM_MODEL : string;
  VISION_MODEL : string;
  EMBEDDING_MODEL : string;
  EMBEDDING_DIM : Z;
  NEO4J_URI : string;
  NEO4J_USERNAME : string;
  NEO4J_PASSWORD : option string;
  POSTGRES_URI : option string;
  LIGHTRAG_AVAILABLE : bool
}.

Definition getenv (env : gmap string string) (k : string) : option string := env !! k.

Definition getenv_default (env : gmap string string) (k d : string) : string :=
  default d (env !! k).

Definition module_globals (env : gmap string string) (dim : Z) (available : bool) : Config :=
  {| WORKING_DIR := getenv_default env "WORKING_DIR" "./data/rag_storage";
     OPENROUTER_API_KEY := getenv env "OPENROUTER_API_KEY";
     OPENROUTER_BASE_URL := "https://openrouter.ai/api/v1";
     LLM_MODEL := getenv_default env "LLM_MODEL" "anthropic/claude-3.5-sonnet";
     VISION_MODEL := getenv_default env "VISION_MODEL" "openai/gpt-4o";
     EMBEDDING_MODEL := getenv_default env "EMBEDDING_MODEL" "text-embedding-3-small";
     EMBEDDING_DIM := dim;
     NEO4J_URI := getenv_default env "NEO4J_URI" "bolt://neo4j:7687";
     NEO4J_USERNAME := getenv_default env "NEO4J_USERNAME" "neo4j";
     NEO4J_PASSWORD := getenv env "NEO4J_PASSWORD";
     POSTGRES_URI := getenv env "POSTGRES_URI";
     LIGHTRAG_AVAILABLE := available |}.

(** Truth value of an [Optional[str]]: [None] and [""] are false. *)
Definition truthy_str (o : option string) : bool :=
  match o with
  | None => false
  | Some s => if decide (s = "") then false else true
  end.

(** The value of an [Optional[str]] on a path where it is a [str]. *)
Definition the_str (o : option string) : string := default "" o.

(** ** API models (lines 53-66) *)

Record InsertRequest := {
  content : string;
  description : option string
}.

Record QueryRequest := {
  query : string;
  mode : option string
}.

(** [QueryRequest(query=..., mode=...)]: [mode] is [None] when the body
    has no [mode] field, [Some None] for [null], [Some (Some m)] for a
    string; an omitted field takes the declared default ["hybrid"]. *)
Definition QueryRequest_new (q : string) (m : option (option string)) : QueryRequest :=
  {| query := q; mode := default (Some "hybrid") m |}.

(** [InsertRequest(content=..., description=...)], default [None]. *)
Definition InsertRequest_new (c : string) (d : option (option string)) : InsertRequest :=
  {| content := c; description := default None d |}.

Record QueryResponse := {
  answer : string;
  resp_mode : string
}.

(** What [aquery] hands back: a [str], or an object that is not one
    ([None], an async iterator), which a [str] field does not accept. *)
Inductive pyval :=
| PStr (s : string)
| PNotStr.

(** Starlette's [UploadFile]: the client-supplied file name (optional)
    and what [await file.read()] yields. *)
Record UploadFile := {
  filename : option string;
  read : PyExc + bytes
}.

(** ** Objects of the external libraries

    Each object is the record of the arguments the source constructs it
    with; the closures of [create_llm_func], [create_vision_func] and
    [create_embedding_func] are the values they capture. *)

Record ProviderFunc := {
  pf_model : string;
  pf_api_key : option string;
  pf_base_url : string
}.

Record EmbeddingFunc := {
  embedding_dim : Z;
  max_token_size : Z;
  func : ProviderFunc
}.

Record LightRAG := {
  working_dir : string;
  llm_model_func : ProviderFunc;
  embedding_func : EmbeddingFunc;
  graph_storage : string;
  vector_storage : string;
  kv_storage : string
}.

Record RAGAnythingConfig := {
  config_working_dir : string;
  parser : string;
  enable_image_processing : bool;
  enable_table_processing : bool;
  enable_equation_processing : bool
}.

Record RAGAnything := {
  lightrag : LightRAG;
  vision_model_func : ProviderFunc;
  config : RAGAnythingConfig
}.

Record QueryParam := {
  param_mode : option string
}.

(** What the libraries can see and change: the disk, the process
    environment and their own state [Ext] (graph store, vector store,
    provider caches). *)
Record Sys (Ext : Type) := mkSys {
  disk : gmap (list string) node;
  environ : gmap string string;
  stores : Ext
}.

Arguments mkSys {Ext} _ _ _.
Arguments disk {Ext} _.
Arguments environ {Ext} _.
Arguments stores {Ext} _.

(** The behaviour of the libraries, as state-passing functions that
    return a value or raise.  [validation_message] is the text pydantic
    gives a [ValidationError] of a model for a list of rejected fields. *)
Record Library (Ext : Type) := {
  LightRAG_init : LightRAG → Sys Ext → (PyExc + unit) * Sys Ext;
  initialize_storages : LightRAG → Sys Ext → (PyExc + unit) * Sys Ext;
  RAGAnything_init : RAGAnything → Sys Ext → (PyExc + unit) * Sys Ext;
  ainsert : LightRAG → string → Sys Ext → (PyExc + unit) * Sys Ext;
  aquery : LightRAG → string → QueryParam → Sys Ext → (PyExc + pyval) * Sys Ext;
  process_file : RAGAnything → string → Sys Ext → (PyExc + unit) * Sys Ext;
  validation_message : string → list string → string
}.

Arguments LightRAG_init {Ext} _ _ _.
Arguments initialize_storages {Ext} _ _ _.
Arguments RAGAnything_init {Ext} _ _ _.
Arguments ainsert {Ext} _ _ _ _.
Arguments aquery {Ext} _ _ _ _ _.
Arguments process_file {Ext} _ _ _ _.
Arguments validation_message {Ext} _ _ _.

(** ** Effects and the ghost trace *)

Inductive level := INFO | ERROR.

Inductive call :=
| CLightRAG (o : LightRAG)
| CInitializeStorages (o : LightRAG)
| CRAGAnything (o : RAGAnything)
| CAinsert (text : string)
| CAquery (text : string) (param : QueryParam)
| CProcessFile (path : string).

(** One entry per effect, in program order.  A log entry carries the
    text of the message without its leading pictogram. *)
Inductive event :=
| Log (l : level) (msg : string)
| Traceback (e : PyExc)
| Mkdir (p : PurePath)
| EnvUpdate (kvs : list (string * string))
| OpenWb (p : PurePath)
| ReadUpload
| WriteFile (k : list string) (data : bytes)
| CloseFile (k : list string)
| Call (c : call).

Definition is_call (e : event) : bool :=
  match e with
  | Call _ => true
  | _ => false
  end.

(** How a handler ends: it returns a value, raises [HTTPException], or
    lets another exception escape. *)
Inductive outcome (A : Type) :=
| Returned (a : A)
| HTTPError (status_code : Z) (detail : string)
| Unhandled (e : PyExc).

Arguments Returned {A} _.
Arguments HTTPError {A} _ _.
Arguments Unhandled {A} _.

(** The state of the process: the module global [rag_instance], the
    working directory of the process, what the libraries share with it,
    and the trace. *)
Record World (Ext : Type) := mkWorld {
  rag_instance : option RAGAnything;
  cwd : list string;
  sys : Sys Ext;
  trace : list event
}.

Arguments mkWorld {Ext} _ _ _ _.
Arguments rag_instance {Ext} _.
Arguments cwd {Ext} _.
Arguments sys {Ext} _.
Arguments trace {Ext} _.

(** Code that runs in a [World] and returns or raises. *)
Definition M (Ext A : Type) : Type := World Ext → (PyExc + A) * World Ext.

#[global] Instance M_ret {Ext : Type} : MRet (M Ext) :=
  λ A a w, (inr a, w).

#[global] Instance M_bind {Ext : Type} : MBind (M Ext) :=
  λ A B k m w,
    match m w with
    | (inr a, w') => k a w'
    | (inl e, w') => (inl e, w')
    end.

Definition raise {Ext A : Type} (e : PyExc) : M Ext A :=
  λ w, (inl e, w).

Definition emit {Ext : Type} (e : event) (w : World Ext) : World Ext :=
  mkWorld (rag_instance w) (cwd w) (sys w) (trace w ++ [e]).

Definition set_disk {Ext : Type} (fs : gmap (list string) node) (w : World Ext) : World Ext :=
  mkWorld (rag_instance w) (cwd w) (mkSys fs (environ (sys w)) (stores (sys w))) (trace w).

Definition set_sys {Ext : Type} (s : Sys Ext) (w : World Ext) : World Ext :=
  mkWorld (rag_instance w) (cwd w) s (trace w).

(** [logger.info(msg)], [logger.error(msg)] *)
Definition log {Ext : Type} (l : level) (msg : string) : M Ext unit :=
  λ w, (inr tt, emit (Log l msg) w).

(** [traceback.print_exc()] *)
Definition print_exc {Ext : Type} (e : PyExc) : M Ext unit :=
  λ w, (inr tt, emit (Traceback e) w).

(** [global rag_instance; rag_instance = r] *)
Definition assign_rag_instance {Ext : Type} (r : RAGAnything) : M Ext unit :=
  λ w, (inr tt, mkWorld (Some r) (cwd w) (sys w) (trace w)).

(** [os.environ.update(kvs)] *)
Definition environ_update {Ext : Type} (kvs : list (string * string)) : M Ext unit :=
  λ w, (inr tt,
        emit (EnvUpdate kvs)
          (set_sys (mkSys (disk (sys w))
                          (foldl (λ env kv, <[kv.1 := kv.2]> env) (environ (sys w)) kvs)
                          (stores (sys w))) w)).

(** A call into a library. *)
Definition lib_call {Ext A : Type} (c : call) (f : Sys Ext → (PyExc + A) * Sys Ext) : M Ext A :=
  λ w, let w1 := emit (Call c) w in
       (fst (f (sys w1)), set_sys (snd (f (sys w1))) w1).

(** [p.mkdir(parents=True, exist_ok=True)] *)
Definition mkdir_p {Ext : Type} (p : PurePath) : M Ext unit :=
  λ w, let w1 := emit (Mkdir p) w in
       match Path_mkdir (cwd w1) p (disk (sys w1)) with
       | inl e => (inl (OSError e (str_path p)), w1)
       | inr fs => (inr tt, set_disk fs w1)
       end.

(** [upload_dir / file.filename] *)
Definition truediv {Ext : Type} (p : PurePath) (name : option string) : M Ext PurePath :=
  match name with
  | Some s => mret (joinpath p s)
  | None => raise (mkExc "TypeError" true
                     "unsupported operand type(s) for /: 'PosixPath' and 'NoneType'")
  end.

(** [open(p, "wb")] *)
Definition open_wb {Ext : Type} (p : PurePath) : M Ext (list string) :=
  λ w, let w1 := emit (OpenWb p) w in
       match os_open_wb (cwd w1) p (disk (sys w1)) with
       | inl e => (inl (OSError e (str_path p)), w1)
       | inr (k, fs) => (inr k, set_disk fs w1)
       end.

(** [await file.read()] *)
Definition file_read {Ext : Type} (file : UploadFile) : M Ext bytes :=
  λ w, (read file, emit ReadUpload w).

(** [f.write(data)] *)
Definition file_write {Ext : Type} (k : list string) (data : bytes) : M Ext unit :=
  λ w, (inr tt, set_disk (os_write k data (disk (sys w))) (emit (WriteFile k data) w)).

(** [with open(...) as f: body]: the file is closed when the block is
    left, by a return or by an exception. *)
Definition with_file {Ext A : Type} (k : list string) (body : M Ext A) : M Ext A :=
  λ w, (fst (body w), emit (CloseFile k) (snd (body w))).

(** [try: body except Exception as e: handler(e)], the handler ending
    normally.  A [BaseException] that is no [Exception] passes through. *)
Definition try_except {Ext A : Type} (body : M Ext A) (handler : PyExc → M Ext A) : M Ext A :=
  λ w, match body w with
       | (inr a, w') => (inr a, w')
       | (inl e, w') => if exc_is_Exception e then handler e w' else (inl e, w')
       end.

(** [try: body except Exception as e: logger.error(f"{what}: {e}");
    raise HTTPException(status_code=500, detail=str(e))] *)
Definition try_except_500 {Ext A : Type} (what : string) (body : M Ext A)
  : World Ext → outcome A * World Ext :=
  λ w, match body w with
       | (inr a, w') => (Returned a, w')
       | (inl e, w') =>
           if exc_is_Exception e
           then (HTTPError 500 (exc_str e), emit (Log ERROR (what +:+ ": " +:+ exc_str e)) w')
           else (Unhandled e, w')
       end.

(** pydantic's [ValidationError] for the rejected fields of a model. *)
Definition ValidationError {Ext : Type} (lib : Library Ext) (model : string)
    (fields : list string) : PyExc :=
  mkExc "ValidationError" true (validation_message lib model fields).

(** [QueryResponse(answer=a, mode=m)]: both fields are declared [str]. *)
Definition QueryResponse_new {Ext : Type} (lib : Library Ext) (a : pyval) (m : option string)
  : M Ext QueryResponse :=
  match a, m with
  | PStr s, Some m' => mret {| answer := s; resp_mode := m' |}
  | PStr _, None => raise (ValidationError lib "QueryResponse" ["mode"])
  | PNotStr, Some _ => raise (ValidationError lib "QueryResponse" ["answer"])
  | PNotStr, None => raise (ValidationError lib "QueryResponse" ["answer"; "mode"])
  end.

(** ** The application (lines 69-284) *)

Section App.

Context {Ext : Type} (lib : Library Ext) (cfg : Config).

Definition create_llm_func : ProviderFunc :=
  {| pf_model := LLM_MODEL cfg;
     pf_api_key := OPENROUTER_API_KEY cfg;
     pf_base_url := OPENROUTER_BASE_URL cfg |}.

Definition create_vision_func : ProviderFunc :=
  {| pf_model := VISION_MODEL cfg;
     pf_api_key := OPENROUTER_API_KEY cfg;
     pf_base_url := OPENROUTER_BASE_URL cfg |}.

Definition create_embedding_func : EmbeddingFunc :=
  {| embedding_dim := EMBEDDING_DIM cfg;
     max_token_size := 8192;
     func := {| pf_model := EMBEDDING_MODEL cfg;
                pf_api_key := OPENROUTER_API_KEY cfg;
                pf_base_url := OPENROUTER_BASE_URL cfg |} |}.

(** The objects [startup_event] constructs (lines 150-157, 164-170,
    173-177). *)
Definition lightrag_core : LightRAG :=
  {| working_dir := WORKING_DIR cfg;
     llm_model_func := create_llm_func;
     embedding_func := create_embedding_func;
     graph_storage := "Neo4JStorage";
     vector_storage := "PGVectorStorage";
     kv_storage := "PGKVStorage" |}.

Definition rag_config : RAGAnythingConfig :=
  {| config_working_dir := WORKING_DIR cfg;
     parser := "mineru";
     enable_image_processing := true;
     enable_table_processing := true;
     enable_equation_processing := true |}.

Definition rag_object : RAGAnything :=
  {| lightrag := lightrag_core;
     vision_model_func := create_vision_func;
     config := rag_config |}.

(** The [try] block of [startup_event] (lines 138-181). *)
Definition startup_try : M Ext unit :=
  environ_update [("NEO4J_URI", NEO4J_URI cfg);
                  ("NEO4J_USERNAME", NEO4J_USERNAME cfg);
                  ("NEO4J_PASSWORD", the_str (NEO4J_PASSWORD cfg));
                  ("POSTGRES_URI", the_str (POSTGRES_URI cfg))] ;;
  log INFO ("Connecting to Neo4j: " +:+ NEO4J_URI cfg) ;;
  log INFO ("Connecting to PostgreSQL: " +:+ slice_to 50 (the_str (POSTGRES_URI cfg)) +:+ "...") ;;
  lib_call (CLightRAG lightrag_core) (LightRAG_init lib lightrag_core) ;;
  lib_call (CInitializeStorages lightrag_core) (initialize_storages lib lightrag_core) ;;
  log INFO "Storage backends initialized" ;;
  lib_call (CRAGAnything rag_object) (RAGAnything_init lib rag_object) ;;
  assign_rag_instance rag_object ;;
  log INFO "RAG system fully initialized!" ;;
  log INFO ("Graph DB: " +:+ NEO4J_URI cfg) ;;
  log INFO ("Vector DB: " +:+ slice_to 50 (the_str (POSTGRES_URI cfg)) +:+ "...").

(** [startup_event] (lines 109-186).  The [mkdir] is outside the [try]:
    if it raises, the hook raises. *)
Definition startup_event : M Ext unit :=
  log INFO "Starting LightRAG initialization..." ;;
  mkdir_p (Path (WORKING_DIR cfg)) ;;
  log INFO ("Working directory: " +:+ WORKING_DIR cfg) ;;
  if negb (truthy_str (OPENROUTER_API_KEY cfg)) then
    log ERROR "OPENROUTER_API_KEY not set!"
  else if negb (truthy_str (NEO4J_PASSWORD cfg)) then
    log ERROR "NEO4J_PASSWORD not set!"
  else if negb (truthy_str (POSTGRES_URI cfg)) then
    log ERROR "POSTGRES_URI not set!"
  else if negb (LIGHTRAG_AVAILABLE cfg) then
    log ERROR "LightRAG modules not available!"
  else
    try_except startup_try
      (λ e, log ERROR ("Failed to initialize RAG system: " +:+ exc_str e) ;;
            print_exc e).

(** [root] (lines 189-196) *)
Definition root_endpoint : dict :=
  [("service", JStr "LightRAG with RAG-Anything");
   ("status", JStr "running");
   ("docs", JStr "/docs")].

(** Truth value of the global ([if rag_instance]) and the identity test
    ([rag_instance is not None]); a [RAGAnything] object is true. *)
Definition truthy (o : option RAGAnything) : bool :=
  match o with
  | Some _ => true
  | None => false
  end.

Definition is_not_None (o : option RAGAnything) : bool :=
  match o with
  | Some _ => true
  | None => false
  end.

(** [health_check] (lines 199-207) *)
Definition health_check (w : World Ext) : dict :=
  [("status", JStr (if truthy (rag_instance w) then "healthy" else "initializing"));
   ("rag_initialized", JBool (is_not_None (rag_instance w)));
   ("neo4j_uri", JStr (NEO4J_URI cfg));
   ("lightrag_available", JBool (LIGHTRAG_AVAILABLE cfg))].

(** The [try] block of [insert_content] (lines 217-225). *)
Definition insert_try (rag : RAGAnything) (request : InsertRequest) : M Ext dict :=
  lib_call (CAinsert (content request)) (ainsert lib (lightrag rag) (content request)) ;;
  log INFO ("Inserted content: " +:+ slice_to 100 (content request) +:+ "...") ;;
  mret [("status", JStr "success");
        ("message", JStr "Content indexed successfully");
        ("content_length", JInt (Z.of_nat (String.length (content request))))].

(** [insert_content] (lines 210-228).  [not rag_instance] holds exactly
    when the global is [None]. *)
Definition insert_content (request : InsertRequest) (w : World Ext)
  : outcome dict * World Ext :=
  match rag_instance w with
  | None => (HTTPError 503 "RAG system not initialized", w)
  | Some rag => try_except_500 "Insert failed" (insert_try rag request) w
  end.

(** The [try] block of [query_content] (lines 238-248). *)
Definition query_try (rag : RAGAnything) (request : QueryRequest) : M Ext QueryResponse :=
  let param := {| param_mode := mode request |} in
  result ← lib_call (CAquery (query request) param)
             (aquery lib (lightrag rag) (query request) param) ;
  log INFO ("Query successful: " +:+ slice_to 100 (query request) +:+ "...") ;;
  QueryResponse_new lib result (mode request).

(** [query_content] (lines 231-251) *)
Definition query_content (request : QueryRequest) (w : World Ext)
  : outcome QueryResponse * World Ext :=
  match rag_instance w with
  | None => (HTTPError 503 "RAG system not initialized", w)
  | Some rag => try_except_500 "Query failed" (query_try rag request) w
  end.

(** [upload_dir] and [file_path] of [upload_file] (lines 262, 265). *)
Definition upload_dir : PurePath := joinpath (Path (WORKING_DIR cfg)) "uploads".

Definition file_path (name : string) : PurePath := joinpath upload_dir name.

(** The [try] block of [upload_file] (lines 261-281).  The [with] block
    closes the file before [process_file] is called, whether its body
    returns or raises. *)
Definition upload_try (rag : RAGAnything) (file : UploadFile) : M Ext dict :=
  mkdir_p upload_dir ;;
  path ← truediv upload_dir (filename file) ;
  f ← open_wb path ;
  data ← with_file f (data ← file_read file ;
                      file_write f data ;;
                      mret data) ;
  log INFO ("Processing file: " +:+ the_str (filename file)) ;;
  lib_call (CProcessFile (str_path path)) (process_file lib rag (str_path path)) ;;
  log INFO ("File processed: " +:+ the_str (filename file)) ;;
  mret [("status", JStr "success");
        ("message", JStr ("File " +:+ the_str (filename file) +:+ " processed successfully"));
        ("filename", JStr (the_str (filename file)));
        ("size", JInt (Z.of_nat (length data)))].

(** [upload_file] (lines 254-284) *)
Definition upload_file (file : UploadFile) (w : World Ext)
  : outcome dict * World Ext :=
  match rag_instance w with
  | None => (HTTPError 503 "RAG system not initialized", w)
  | Some rag => try_except_500 "File upload failed" (upload_try rag file) w
  end.

(** ** The routes, and a run of the service *)

Inductive request :=
| GetRoot
| GetHealth
| PostInsert (r : InsertRequest)
| PostQuery (r : QueryRequest)
| PostUpload (f : UploadFile).

Inductive payload :=
| Body (d : dict)
| Model (r : QueryResponse).

Definition map_outcome {A B : Type} (f : A → B) (o : outcome A) : outcome B :=
  match o with
  | Returned a => Returned (f a)
  | HTTPError s d => HTTPError s d
  | Unhandled e => Unhandled e
  end.

Definition serve (req : request) (w : World Ext) : outcome payload * World Ext :=
  match req with
  | GetRoot => (Returned (Body root_endpoint), w)
  | GetHealth => (Returned (Body (health_check w)), w)
  | PostInsert r => prod_map (map_outcome Body) id (insert_content r w)
  | PostQuery r => prod_map (map_outcome Model) id (query_content r w)
  | PostUpload f => prod_map (map_outcome Body) id (upload_file f w)
  end.

(** Requests served one after the other. *)
Fixpoint run (reqs : list request) (w : World Ext) : list (outcome payload) * World Ext :=
  match reqs with
  | [] => ([], w)
  | req :: reqs' =>
      let '(o, w1) := serve req w in
      let '(os, w2) := run reqs' w1 in
      (o :: os, w2)
  end.

(** The three operations, as opposed to the two informational routes. *)
Definition is_operation (req : request) : bool :=
  match req with
  | PostInsert _ | PostQuery _ | PostUpload _ => true
  | GetRoot | GetHealth => false
  end.

End App.

(** ** Properties of the specification, as predicates *)

(** An [Optional[str]] setting that is absent or empty. *)
Definition unset (o : option string) : Prop := o = None ∨ o = Some "".

(** One of the three required settings is absent or empty. *)
Definition missing_required (cfg : Config) : Prop :=
  unset (OPENROUTER_API_KEY cfg) ∨ unset (NEO4J_PASSWORD cfg) ∨ unset (POSTGRES_URI cfg).

(** The events a computation added to the trace. *)
Definition new_events {Ext : Type} (w w' : World Ext) : list event :=
  drop (length (trace w)) (trace w').

(** The four retrieval modes of the specification. *)
Definition valid_modes : list string := ["naive"; "local"; "global"; "hybrid"].

(** "A mode outside the four is rejected before the query reaches a
    store": the handler answers with an error and has made no call into
    the engine. *)
Definition invalid_mode_rejected {Ext : Type} (lib : Library Ext)
    (w : World Ext) (req : QueryRequest) : Prop :=
  (∀ m, mode req = Some m → m ∉ valid_modes) →
  (∃ s d, fst (query_content lib req w) = HTTPError s d) ∧
  forallb (λ e, negb (is_call e)) (new_events w (snd (query_content lib req w))) = true.

(** "Inserting this sentence returns content_length 30." *)
Definition paris : string := "Paris is the capital of France.".

Definition paris_receipt_30 {Ext : Type} (lib : Library Ext) (w : World Ext) : Prop :=
  ∃ d, fst (insert_content lib {| content := paris; description := None |} w) = Returned d ∧
       dict_get d "status" = Some (JStr "success") ∧
       dict_get d "content_length" = Some (JInt 30).

(** "The health body has the fields status, rag_initialized, graph_uri
    and providers_available." *)
Definition health_shape_of_spec {Ext : Type} (cfg : Config) (w : World Ext) : Prop :=
  (health_check cfg w).*1 = ["status"; "rag_initialized"; "graph_uri"; "providers_available"].

(** A resolved path lies under a directory. *)
Definition under (cwd : list string) (fs : gmap (list string) node) (dir : PurePath)
    (k : list string) : Prop :=
  ∃ d, resolve cwd fs dir = inr d ∧ d `prefix_of` k.

(** A file name that is a single ordinary path component. *)
Fixpoint has_slash (s : string) : bool :=
  match s with
  | EmptyString => false
  | String c s' => Ascii.eqb c "/" || has_slash s'
  end.

Definition plain_name (s : string) : Prop :=
  has_slash s = false ∧ s ≠ "" ∧ s ≠ "." ∧ s ≠ "..".

(** The three settings are present and the libraries were imported. *)
Definition complete (cfg : Config) : Prop :=
  truthy_str (OPENROUTER_API_KEY cfg) = true ∧
  truthy_str (NEO4J_PASSWORD cfg) = true ∧
  truthy_str (POSTGRES_URI cfg) = true ∧
  LIGHTRAG_AVAILABLE cfg = true.

(** The variables [startup_event] exports (lines 139-144), and the
    environment after [os.environ.update] of them. *)
Definition exported (cfg : Config) : list (string * string) :=
  [("NEO4J_URI", NEO4J_URI cfg);
   ("NEO4J_USERNAME", NEO4J_USERNAME cfg);
   ("NEO4J_PASSWORD", the_str (NEO4J_PASSWORD cfg));
   ("POSTGRES_URI", the_str (POSTGRES_URI cfg))].

Definition export_to (cfg : Config) (env : gmap string string) : gmap string string :=
  foldl (λ env kv, <[kv.1 := kv.2]> env) env (exported cfg).

(** The calls into the libraries among some events, in order. *)
Definition calls_of (evs : list event) : list call :=
  omap (λ e, match e with Call c => Some c | _ => None end) evs.

(** The three constructors and initialisers leave the process
    environment as they find it. *)
Definition init_keeps_environ {Ext : Type} (lib : Library Ext) : Prop :=
  (∀ o s, environ (snd (LightRAG_init lib o s)) = environ s) ∧
  (∀ o s, environ (snd (initialize_storages lib o s)) = environ s) ∧
  (∀ o s, environ (snd (RAGAnything_init lib o s)) = environ s).

(** One of the three library calls of the start-up raises [e], the
    ones before it having returned; [s0] is the system the first call
    runs in. *)
Definition init_raises {Ext : Type} (lib : Library Ext) (cfg : Config) (s0 : Sys Ext)
    (e : PyExc) : Prop :=
  (∃ s1, LightRAG_init lib (lightrag_core cfg) s0 = (inl e, s1)) ∨
  (∃ s1 s2, LightRAG_init lib (lightrag_core cfg) s0 = (inr tt, s1) ∧
            initialize_storages lib (lightrag_core cfg) s1 = (inl e, s2)) ∨
  (∃ s1 s2 s3, LightRAG_init lib (lightrag_core cfg) s0 = (inr tt, s1) ∧
               initialize_storages lib (lightrag_core cfg) s1 = (inr tt, s2) ∧
               RAGAnything_init lib (rag_object cfg) s2 = (inl e, s3)).

(** A computation that leaves the global [rag_instance] and the working
    directory of the process alone. *)
Definition keeps_globals {Ext A : Type} (m : M Ext A) : Prop :=
  ∀ w, rag_instance (snd (m w)) = rag_instance w ∧ cwd (snd (m w)) = cwd w.

(** ** A concrete deployment, for examples *)

(** A library whose calls all succeed, or all raise [e]. *)
Definition stub_lib (fail : option PyExc) : Library unit :=
  {| LightRAG_init := λ _ s, (inr tt, s);
     initialize_storages := λ _ s, (inr tt, s);
     RAGAnything_init := λ _ s, (inr tt, s);
     ainsert := λ _ _ s, (from_option inl (inr tt) fail, s);
     aquery := λ _ _ _ s, (from_option inl (inr (PStr "Paris")) fail, s);
     process_file := λ _ _ s, (from_option inl (inr tt) fail, s);
     validation_message := λ model _, "validation error for " +:+ model |}.

Definition parse_failed : PyExc := mkExc "RuntimeError" true "parse failed".

(** A library whose stores cannot be reached: [initialize_storages]
    raises [e]. *)
Definition offline_lib (e : PyExc) : Library unit :=
  {| LightRAG_init := λ _ s, (inr tt, s);
     initialize_storages := λ _ s, (inl e, s);
     RAGAnything_init := λ _ s, (inr tt, s);
     ainsert := λ _ _ s, (inr tt, s);
     aquery := λ _ _ _ s, (inr (PStr "Paris"), s);
     process_file := λ _ _ s, (inr tt, s);
     validation_message := λ model _, "validation error for " +:+ model |}.

Definition refused : PyExc := mkExc "ConnectionRefusedError" true "connection refused".


Definition full_env : gmap string string :=
  {[ "OPENROUTER_API_KEY" := "sk-test";
     "NEO4J_PASSWORD" := "secret";
     "POSTGRES_URI" := "postgresql://db/rag" ]}.

Definition good_cfg : Config := module_globals full_env 1536 true.

(** The libraries could not be imported. *)
Definition no_lib_cfg : Config := module_globals full_env 1536 false.

(** The API key is not in the environment. *)
Definition no_key_cfg : Config :=
  module_globals (delete "OPENROUTER_API_KEY" full_env) 1536 true.

(** A fresh process started in [/app]. *)
Definition fresh : World unit :=
  mkWorld None ["app"] (mkSys {[ ["app"] := NDir; ["tmp"] := NDir ]} ∅ tt) [].

(** The world after a successful start-up. *)
Definition started : World unit := snd (startup_event (stub_lib None) good_cfg fresh).

(** The world after a start-up without API key. *)
Definition degraded : World unit := snd (startup_event (stub_lib None) no_key_cfg fresh).

Definition hi : bytes := [x68; x69].

Definition bye : bytes := [x62; x79; x65].

(** The disk a [mkdir] leaves, when it succeeds. *)
Definition succeeded {A B : Type} (r : A + B) : bool :=
  match r with inr _ => true | inl _ => false end.

Definition made (r : errno + gmap (list string) node) : gmap (list string) node :=
  match r with inr fs => fs | inl _ => ∅ end.

(** The disk of [fresh] with the working directory made, and the disk
    of [started] with the uploads directory made in it. *)
Definition storage_disk : gmap (list string) node :=
  made (Path_mkdir (cwd fresh) (Path (WORKING_DIR good_cfg)) (disk (sys fresh))).

Definition uploads_disk : gmap (list string) node :=
  made (Path_mkdir (cwd started) (upload_dir good_cfg) (disk (sys started))).

(** The system the libraries are first called in: the working directory
    made, the four variables exported. *)
Definition exported_sys : Sys unit := mkSys storage_disk (export_to good_cfg ∅) tt.

(** Where an upload named [a.txt] goes. *)
Definition a_txt : list string := ["app"; "data"; "rag_storage"; "uploads"; "a.txt"].

(** A process whose [./data] is a regular file. *)
Definition blocked : World unit :=
  mkWorld None ["app"] (mkSys {[ ["app"] := NDir; ["app"; "data"] := NFile [] ]} ∅ tt) [].

(** An upload whose body cannot be read. *)
Definition broken_upload : UploadFile :=
  {| filename := Some "a.txt"; read := inl parse_failed |}.

(** * Theorems *)

(** ** Bookkeeping *)

Lemma truthy_str_unset (o : option string) : truthy_str o = false ↔ unset o.
Proof.
  unfold truthy_str, unset. destruct o as [s|].
  - destruct (decide (s = "")) as [->|Hne].
    + split; [by right | done].
    + split; [done | intros [?|[=]]; [done | contradiction]].
  - split; [by left | done].
Qed.

Lemma new_events_app {Ext : Type} (w w' : World Ext) (evs : list event) :
  trace w' = trace w ++ evs → new_events w w' = evs.
Proof. unfold new_events. intros ->. by rewrite drop_app_length. Qed.

(** Closes [∃ evs, new_events w w' = e :: evs] once [trace w'] is
    explicit. *)
Ltac trace_tail :=
  eexists; apply new_events_app; cbn; rewrite <- ?app_assoc; reflexivity.

(** ** The disk *)

Lemma lookup_node_mono (fs fs' : gmap (list string) node) (k : list string) (n : node) :
  fs ⊆ fs' → lookup_node fs k = Some n → lookup_node fs' k = Some n.
Proof.
  intros Hsub. destruct k as [|c k]; [done|]. cbn. intros Hk.
  by eapply lookup_weaken.
Qed.

(** Resolution only reads directories, so it survives growth of the
    disk. *)
Lemma walk_mono (fs fs' : gmap (list string) node) (cs cur k : list string) :
  fs ⊆ fs' → walk fs cur cs = inr k → walk fs' cur cs = inr k.
Proof.
  intros Hsub. revert cur. induction cs as [|c cs IH]; intros cur; cbn; [done|].
  destruct (lookup_node fs cur) as [[|data]|] eqn:Hcur; [|done..].
  rewrite (lookup_node_mono fs fs' cur NDir Hsub Hcur). apply IH.
Qed.

Lemma os_mkdir_is_dir (cwd : list string) (p : PurePath) (fs fs' : gmap (list string) node) :
  os_mkdir cwd p fs = inr fs' → is_dir cwd p fs' = true.
Proof.
  unfold os_mkdir, is_dir, resolve.
  destruct (walk fs _ (parts p)) as [e|k] eqn:Hwalk; [done|].
  destruct (lookup_node fs k) as [n|] eqn:Hk; [done|]. intros [= <-].
  destruct k as [|c k]; [done|]. cbn in Hk.
  rewrite (walk_mono fs (<[c :: k := NDir]> fs) _ _ (c :: k)); [|by apply insert_subseteq|done].
  cbn. by rewrite lookup_insert_eq.
Qed.

Lemma mkdir_exist_ok_is_dir (cwd : list string) (p : PurePath)
    (fs fs' : gmap (list string) node) :
  mkdir_exist_ok cwd p fs = inr fs' → is_dir cwd p fs' = true.
Proof.
  unfold mkdir_exist_ok. destruct (os_mkdir cwd p fs) as [e|fs1] eqn:Hmk.
  - destruct e; [done|..]; destruct (is_dir cwd p fs) eqn:Hd; naive_solver.
  - intros [= <-]. by eapply os_mkdir_is_dir.
Qed.

Lemma mkdir_rec_is_dir (cwd : list string) (r : string) (rparts : list string)
    (fs fs' : gmap (list string) node) :
  mkdir_rec cwd r rparts fs = inr fs' →
  is_dir cwd {| root := r; parts := rev rparts |} fs' = true.
Proof.
  destruct rparts as [|c rparent]; cbn [mkdir_rec].
  - destruct (os_mkdir cwd _ fs) as [e|fs1] eqn:Hmk.
    + destruct e; [done|..]; destruct (is_dir cwd _ fs) eqn:Hd; naive_solver.
    + intros [= <-]. by eapply os_mkdir_is_dir.
  - destruct (os_mkdir cwd _ fs) as [e|fs1] eqn:Hmk.
    + destruct e.
      * destruct (mkdir_rec cwd r rparent fs) as [e|fs1]; [done|].
        apply mkdir_exist_ok_is_dir.
      * destruct (is_dir cwd _ fs) eqn:Hd; naive_solver.
      * destruct (is_dir cwd _ fs) eqn:Hd; naive_solver.
      * destruct (is_dir cwd _ fs) eqn:Hd; naive_solver.
    + intros [= <-]. by eapply os_mkdir_is_dir.
Qed.

(** After a successful [p.mkdir(parents=True, exist_ok=True)], [p] is a
    directory. *)
Lemma Path_mkdir_is_dir (cwd : list string) (p : PurePath) (fs fs' : gmap (list string) node) :
  Path_mkdir cwd p fs = inr fs' → is_dir cwd p fs' = true.
Proof.
  unfold Path_mkdir. intros H. apply mkdir_rec_is_dir in H.
  rewrite rev_involutive in H. by destruct p.
Qed.

(** Resolving one more component. *)
Lemma walk_snoc (fs : gmap (list string) node) (cs cur : list string) (c : string) :
  walk fs cur (cs ++ [c]) =
    match walk fs cur cs with
    | inl e => inl e
    | inr d =>
        match lookup_node fs d with
        | Some NDir => inr (if decide (c = "..") then removelast d else d ++ [c])
        | Some (NFile _) => inl ENOTDIR
        | None => inl ENOENT
        end
    end.
Proof.
  revert cur. induction cs as [|c' cs IH]; intros cur; cbn.
  - by destruct (lookup_node fs cur) as [[|?]|].
  - destruct (lookup_node fs cur) as [[|?]|]; [apply IH|done..].
Qed.

(** ** pathlib *)

Lemma split_slash_plain (s : string) : has_slash s = false → split_slash s = [s].
Proof.
  induction s as [|c s IH]; cbn; [done|].
  destruct (Ascii.eqb c "/"); [done|]. cbn. intros H. by rewrite IH.
Qed.

Lemma leading_slashes_plain (s : string) : has_slash s = false → leading_slashes s = 0.
Proof. destruct s as [|c s]; cbn; [done|]. by destruct (Ascii.eqb c "/"). Qed.

Lemma Path_plain (s : string) :
  has_slash s = false → s ≠ "" → s ≠ "." → Path s = {| root := ""; parts := [s] |}.
Proof.
  intros Hs He Hd. unfold Path.
  rewrite leading_slashes_plain, split_slash_plain by done.
  by rewrite filter_cons_True, filter_nil.
Qed.

(** Joining a plain name appends one component. *)
Lemma joinpath_plain (p : PurePath) (s : string) :
  has_slash s = false → s ≠ "" → s ≠ "." →
  joinpath p s = {| root := root p; parts := parts p ++ [s] |}.
Proof. intros Hs He Hd. unfold joinpath. by rewrite Path_plain. Qed.

Section Facts.

Context {Ext : Type} (lib : Library Ext) (cfg : Config).

(** ** Readiness gate *)

(** C2.  While [rag_instance] is [None], each of [insert_content],
    [query_content] and [upload_file] raises
    [HTTPException(503, "RAG system not initialized")] and leaves the
    world as it found it: no library call, no disk operation, not even a
    log line. *)
Theorem not_ready_is_503 (w : World Ext) (ri : InsertRequest) (rq : QueryRequest)
    (f : UploadFile) :
  rag_instance w = None →
  insert_content lib ri w = (HTTPError 503 "RAG system not initialized", w) ∧
  query_content lib rq w = (HTTPError 503 "RAG system not initialized", w) ∧
  upload_file lib cfg f w = (HTTPError 503 "RAG system not initialized", w).
Proof.
  intros Hnone. unfold insert_content, query_content, upload_file.
  rewrite Hnone. done.
Qed.

(** ** Health *)

(** C6 (as amended).  [health_check] always returns a body with exactly
    the keys [status], [rag_initialized], [neo4j_uri] and
    [lightrag_available], in this order; [status] is ["healthy"] and
    [rag_initialized] is [True] when [rag_instance] is set, and they are
    ["initializing"] and [False] when it is [None]; the other two carry
    the module's [NEO4J_URI] and [LIGHTRAG_AVAILABLE]. *)
Theorem health_check_body (w : World Ext) :
  (health_check cfg w).*1 = ["status"; "rag_initialized"; "neo4j_uri"; "lightrag_available"] ∧
  dict_get (health_check cfg w) "neo4j_uri" = Some (JStr (NEO4J_URI cfg)) ∧
  dict_get (health_check cfg w) "lightrag_available" = Some (JBool (LIGHTRAG_AVAILABLE cfg)) ∧
  match rag_instance w with
  | Some _ =>
      dict_get (health_check cfg w) "status" = Some (JStr "healthy") ∧
      dict_get (health_check cfg w) "rag_initialized" = Some (JBool true)
  | None =>
      dict_get (health_check cfg w) "status" = Some (JStr "initializing") ∧
      dict_get (health_check cfg w) "rag_initialized" = Some (JBool false)
  end.
Proof.
  unfold health_check. destruct (rag_instance w); cbn; done.
Qed.

(** ** Insert *)

(** C4 (as amended).  On a ready system, when the engine's [ainsert]
    returns, [insert_content] returns a receipt whose [status] is
    ["success"] and whose [content_length] is [len(content)]; for the
    sentence "Paris is the capital of France." that length is 31. *)
Theorem insert_receipt (w : World Ext) (rag : RAGAnything) (req : InsertRequest)
    (s' : Sys Ext) :
  rag_instance w = Some rag →
  ainsert lib (lightrag rag) (content req) (sys w) = (inr tt, s') →
  ∃ d, fst (insert_content lib req w) = Returned d ∧
       d.*1 = ["status"; "message"; "content_length"] ∧
       dict_get d "status" = Some (JStr "success") ∧
       dict_get d "content_length" = Some (JInt (Z.of_nat (String.length (content req)))) ∧
       (content req = paris → dict_get d "content_length" = Some (JInt 31)).
Proof.
  intros Hready Hins.
  unfold insert_content. rewrite Hready.
  unfold try_except_500, insert_try, mbind, M_bind, lib_call. cbn.
  rewrite Hins. cbn. eexists. split; [reflexivity|].
  repeat split. intros ->. reflexivity.
Qed.

(** ** Query *)

Lemma query_try_unfold (rag : RAGAnything) (req : QueryRequest) (w : World Ext) :
  let param := {| param_mode := mode req |} in
  let w1 := emit (Call (CAquery (query req) param)) w in
  let r := aquery lib (lightrag rag) (query req) param (sys w) in
  query_try lib rag req w =
    match fst r with
    | inl e => (inl e, set_sys (snd r) w1)
    | inr a =>
        QueryResponse_new lib a (mode req)
          (emit (Log INFO ("Query successful: " +:+ slice_to 100 (query req) +:+ "..."))
             (set_sys (snd r) w1))
    end.
Proof.
  cbn. unfold query_try, mbind, M_bind, lib_call, log. cbn.
  destruct (aquery lib (lightrag rag) (query req) _ (sys w)) as [[e|a] s1]; reflexivity.
Qed.

Lemma QueryResponse_new_trace (a : pyval) (m : option string) (w : World Ext) :
  snd (QueryResponse_new lib a m w) = w.
Proof. destruct a, m; reflexivity. Qed.

Lemma query_first_event (w : World Ext) (rag : RAGAnything) (req : QueryRequest) :
  rag_instance w = Some rag →
  ∃ evs, new_events w (snd (query_content lib req w)) =
           Call (CAquery (query req) {| param_mode := mode req |}) :: evs.
Proof.
  intros Hready. unfold query_content. rewrite Hready.
  unfold try_except_500. rewrite query_try_unfold. cbn zeta.
  destruct (aquery lib (lightrag rag) (query req) _ (sys w)) as [[e|a] s1]; cbn [fst snd].
  - destruct (exc_is_Exception e); trace_tail.
  - destruct a as [a|], (mode req) as [m|]; cbn; trace_tail.
Qed.

(** C1 (as amended).  [query_content] does not validate the mode.  On a
    ready system, for every value of [request.mode] (one of the four
    modes, any other string, or [None]), its first effect is the call
    [aquery(request.query, param=QueryParam(mode=request.mode))] on the
    engine, with the mode unchanged; and when the engine answers with a
    string and the mode is a string, the handler returns that answer
    with that mode. *)
Theorem query_forwards_any_mode (w : World Ext) (rag : RAGAnything) (req : QueryRequest) :
  rag_instance w = Some rag →
  (∃ evs, new_events w (snd (query_content lib req w)) =
            Call (CAquery (query req) {| param_mode := mode req |}) :: evs) ∧
  (∀ a m,
     fst (aquery lib (lightrag rag) (query req) {| param_mode := mode req |} (sys w))
       = inr (PStr a) →
     mode req = Some m →
     fst (query_content lib req w) = Returned {| answer := a; resp_mode := m |}).
Proof.
  intros Hready. split; [by eapply query_first_event|].
  unfold query_content. rewrite Hready.
  unfold try_except_500. rewrite query_try_unfold. cbn zeta.
  intros a m Haq Hm. rewrite Haq, Hm. reflexivity.
Qed.

(** C8.  A [QueryRequest] built without a [mode] field has mode
    ["hybrid"].  Whenever [query_content] returns a response, the
    request's mode is a string, the response's [mode] is that string, it
    is the mode the engine was called with, and [answer] is the string
    the engine returned. *)
Theorem query_response_mode (w : World Ext) (req : QueryRequest) :
  mode (QueryRequest_new (query req) None) = Some "hybrid" ∧
  ∀ resp w',
    query_content lib req w = (Returned resp, w') →
    mode req = Some (resp_mode resp) ∧
    ∃ rag, rag_instance w = Some rag ∧
           Call (CAquery (query req) {| param_mode := Some (resp_mode resp) |})
             ∈ new_events w w' ∧
           fst (aquery lib (lightrag rag) (query req)
                  {| param_mode := Some (resp_mode resp) |} (sys w))
             = inr (PStr (answer resp)).
Proof.
  split; [reflexivity|]. intros resp w'.
  unfold query_content. destruct (rag_instance w) as [rag|] eqn:Hready; [|intros [=]].
  unfold try_except_500. rewrite query_try_unfold. cbn zeta.
  destruct (aquery lib (lightrag rag) (query req) _ (sys w)) as [[e|a] s1] eqn:Haq; cbn [fst snd].
  - destruct (exc_is_Exception e); intros [=].
  - destruct a as [a|], (mode req) as [m|] eqn:Hm; cbn; intros [= <- <-].
    split; [reflexivity|].
    exists rag. split; [reflexivity|]. cbn. split.
    + erewrite new_events_app; [|cbn; rewrite <- app_assoc; reflexivity].
      apply list_elem_of_here.
    + by rewrite Haq.
Qed.

(** With the field omitted, the engine is queried in mode ["hybrid"]. *)
Lemma query_default_mode_reaches_engine (w : World Ext) (rag : RAGAnything) (q : string) :
  rag_instance w = Some rag →
  ∃ evs, new_events w (snd (query_content lib (QueryRequest_new q None) w)) =
           Call (CAquery q {| param_mode := Some "hybrid" |}) :: evs.
Proof.
  intros Hready.
  apply (query_first_event w rag (QueryRequest_new q None) Hready).
Qed.

(** ** Start-up with a missing setting *)

(** With a required setting missing, [startup_event] is: log, create the
    working directory, log, and report the first missing setting. *)
Lemma startup_missing (w : World Ext) :
  missing_required cfg →
  ∃ msg,
    startup_event lib cfg w =
      let w1 := emit (Mkdir (Path (WORKING_DIR cfg)))
                  (emit (Log INFO "Starting LightRAG initialization...") w) in
      match Path_mkdir (cwd w) (Path (WORKING_DIR cfg)) (disk (sys w)) with
      | inl e => (inl (OSError e (str_path (Path (WORKING_DIR cfg)))), w1)
      | inr fs =>
          (inr tt,
           emit (Log ERROR msg)
             (emit (Log INFO ("Working directory: " +:+ WORKING_DIR cfg)) (set_disk fs w1)))
      end.
Proof.
  intros Hmiss. unfold startup_event, mbind, M_bind, mkdir_p, log.
  cbn -[Path_mkdir Path str_path].
  destruct (truthy_str (OPENROUTER_API_KEY cfg)) eqn:H1;
    [destruct (truthy_str (NEO4J_PASSWORD cfg)) eqn:H2;
       [destruct (truthy_str (POSTGRES_URI cfg)) eqn:H3|]|]; cbn -[Path_mkdir Path str_path].
  - exfalso. destruct Hmiss as [H|[H|H]]; apply truthy_str_unset in H; congruence.
  - exists "POSTGRES_URI not set!". by destruct (Path_mkdir _ _ _).
  - exists "NEO4J_PASSWORD not set!". by destruct (Path_mkdir _ _ _).
  - exists "OPENROUTER_API_KEY not set!". by destruct (Path_mkdir _ _ _).
Qed.

(** While [rag_instance] is [None] no route changes the world, and the
    three operations answer 503. *)
Lemma run_not_ready (reqs : list request) (w : World Ext) :
  rag_instance w = None →
  snd (run lib cfg reqs w) = w ∧
  Forall2 (λ req o, is_operation req = true →
                    o = HTTPError 503 "RAG system not initialized")
    reqs (fst (run lib cfg reqs w)).
Proof.
  intros Hnone. induction reqs as [|req reqs [IHw IHo]]; cbn; [by split|].
  assert (∃ o, serve lib cfg req w = (o, w) ∧
               (is_operation req = true → o = HTTPError 503 "RAG system not initialized"))
    as (o & -> & Ho).
  { destruct req; cbn; unfold insert_content, query_content, upload_file;
      rewrite ?Hnone; cbn; (eexists; split; [reflexivity|done]). }
  destruct (run lib cfg reqs w) as [os w2]; cbn in *. split; [done|].
  by constructor.
Qed.

(** C3.  If the API key, the graph password or the vector-store URI is
    absent or empty when [startup_event] runs in a process whose
    [rag_instance] is [None], then the hook makes no call into the
    libraries (no store or pipeline is constructed) and leaves their
    state alone, [rag_instance] is still [None] afterwards, it is still
    [None] after any sequence of requests, and every insert, query or
    upload in that sequence is answered with
    [HTTPException(503, "RAG system not initialized")]. *)
Theorem missing_config_never_ready (w : World Ext) (reqs : list request) :
  rag_instance w = None →
  missing_required cfg →
  rag_instance (snd (startup_event lib cfg w)) = None ∧
  forallb (λ e, negb (is_call e)) (new_events w (snd (startup_event lib cfg w))) = true ∧
  stores (sys (snd (startup_event lib cfg w))) = stores (sys w) ∧
  rag_instance (snd (run lib cfg reqs (snd (startup_event lib cfg w)))) = None ∧
  Forall2 (λ req o, is_operation req = true →
                    o = HTTPError 503 "RAG system not initialized")
    reqs (fst (run lib cfg reqs (snd (startup_event lib cfg w)))).
Proof.
  intros Hnone Hmiss.
  destruct (startup_missing w Hmiss) as [msg ->]. cbn zeta.
  assert (rag_instance (snd
    match Path_mkdir (cwd w) (Path (WORKING_DIR cfg)) (disk (sys w)) with
    | inl e =>
        (inl (OSError e (str_path (Path (WORKING_DIR cfg)))) : PyExc + unit,
         emit (Mkdir (Path (WORKING_DIR cfg)))
           (emit (Log INFO "Starting LightRAG initialization...") w))
    | inr fs =>
        (inr tt,
         emit (Log ERROR msg)
           (emit (Log INFO ("Working directory: " +:+ WORKING_DIR cfg))
              (set_disk fs
                 (emit (Mkdir (Path (WORKING_DIR cfg)))
                    (emit (Log INFO "Starting LightRAG initialization...") w)))))
    end) = None) as Hnone1.
  { by destruct (Path_mkdir _ _ _). }
  destruct (run_not_ready reqs _ Hnone1) as [Hw Ho].
  split; [done|]. split; [|split; [|split; [by rewrite Hw | done]]].
  - destruct (Path_mkdir _ _ _); cbn [snd];
      (erewrite new_events_app; [|cbn; rewrite <- ?app_assoc; reflexivity]); reflexivity.
  - by destruct (Path_mkdir _ _ _).
Qed.

(** C9.  With a required setting missing, the first disk effect of
    [startup_event] is the [mkdir] of the working directory, before any
    validation.  If the hook returns, the working directory is a
    directory on disk and the effects were, in this order: the start
    message, the [mkdir], the message naming the directory, and only
    then the error message of the validation.  Otherwise it is the
    [mkdir] itself that raised, and no validation ran.  In both cases
    [rag_instance] is what it was. *)
Theorem working_dir_created_before_validation (w : World Ext) :
  missing_required cfg →
  rag_instance (snd (startup_event lib cfg w)) = rag_instance w ∧
  match fst (startup_event lib cfg w) with
  | inr _ =>
      is_dir (cwd w) (Path (WORKING_DIR cfg))
        (disk (sys (snd (startup_event lib cfg w)))) = true ∧
      ∃ msg, new_events w (snd (startup_event lib cfg w)) =
               [Log INFO "Starting LightRAG initialization...";
                Mkdir (Path (WORKING_DIR cfg));
                Log INFO ("Working directory: " +:+ WORKING_DIR cfg);
                Log ERROR msg]
  | inl e =>
      (∃ n, Path_mkdir (cwd w) (Path (WORKING_DIR cfg)) (disk (sys w)) = inl n ∧
            e = OSError n (str_path (Path (WORKING_DIR cfg)))) ∧
      new_events w (snd (startup_event lib cfg w)) =
        [Log INFO "Starting LightRAG initialization..."; Mkdir (Path (WORKING_DIR cfg))]
  end.
Proof.
  intros Hmiss. destruct (startup_missing w Hmiss) as [msg ->]. cbn zeta.
  destruct (Path_mkdir _ _ _) as [n|fs] eqn:Hmk; cbn [fst snd].
  - split; [done|]. split; [by exists n|].
    apply new_events_app. cbn. by rewrite <- !app_assoc.
  - split; [done|]. split; [by eapply Path_mkdir_is_dir|].
    exists msg. apply new_events_app. cbn. by rewrite <- !app_assoc.
Qed.

(** ** Failures inside an operation *)

(** C5.  On a ready system, an exception [e] deriving from [Exception]
    that is raised anywhere inside the [try] block of [insert_content],
    [query_content] or [upload_file] (by a provider or a store behind
    the engine, by parsing, by a disk operation, by response validation)
    ends the handler with [HTTPException(500, detail=str(e))], after one
    error log line; and no route ever lets such an exception escape. *)
Theorem failures_become_500 (w w' : World Ext) (rag : RAGAnything) (e : PyExc) :
  rag_instance w = Some rag →
  exc_is_Exception e = true →
  (∀ r, insert_try lib rag r w = (inl e, w') →
        insert_content lib r w =
          (HTTPError 500 (exc_str e), emit (Log ERROR ("Insert failed: " +:+ exc_str e)) w')) ∧
  (∀ r, query_try lib rag r w = (inl e, w') →
        query_content lib r w =
          (HTTPError 500 (exc_str e), emit (Log ERROR ("Query failed: " +:+ exc_str e)) w')) ∧
  (∀ f, upload_try lib cfg rag f w = (inl e, w') →
        upload_file lib cfg f w =
          (HTTPError 500 (exc_str e),
           emit (Log ERROR ("File upload failed: " +:+ exc_str e)) w')) ∧
  (∀ req, fst (serve lib cfg req w) ≠ Unhandled e).
Proof.
  intros Hready Hexc.
  unfold insert_content, query_content, upload_file, try_except_500. rewrite Hready.
  split; [|split; [|split]].
  - intros r ->. by rewrite Hexc.
  - intros r ->. by rewrite Hexc.
  - intros f ->. by rewrite Hexc.
  - intros req. destruct req as [| |r|r|f]; cbn; [done..| | |];
      unfold insert_content, query_content, upload_file, try_except_500; rewrite Hready.
    + destruct (insert_try lib rag r w) as [[e'|d] w1]; [|done].
      destruct (exc_is_Exception e') eqn:He'; cbn; [done|]. intros [= ->]. congruence.
    + destruct (query_try lib rag r w) as [[e'|d] w1]; [|done].
      destruct (exc_is_Exception e') eqn:He'; cbn; [done|]. intros [= ->]. congruence.
    + destruct (upload_try lib cfg rag f w) as [[e'|d] w1]; [|done].
      destruct (exc_is_Exception e') eqn:He'; cbn; [done|]. intros [= ->]. congruence.
Qed.

(** The failures of the collaborators are failures of the [try] block:
    what [ainsert], [aquery] or [process_file] raises is what the block
    raises. *)
Lemma insert_try_raises (w : World Ext) (rag : RAGAnything) (r : InsertRequest) (e : PyExc) :
  fst (ainsert lib (lightrag rag) (content r) (sys w)) = inl e →
  fst (insert_try lib rag r w) = inl e.
Proof.
  intros H. unfold insert_try, mbind, M_bind, lib_call. cbn. by rewrite H.
Qed.

Lemma query_try_raises (w : World Ext) (rag : RAGAnything) (r : QueryRequest) (e : PyExc) :
  fst (aquery lib (lightrag rag) (query r) {| param_mode := mode r |} (sys w)) = inl e →
  fst (query_try lib rag r w) = inl e.
Proof.
  intros H. rewrite query_try_unfold. cbn zeta. by rewrite H.
Qed.

(** ** Upload *)

(** X22.  When the directory, the file name, the open and the read all
    succeed, [upload_file] has written the complete bytes under the
    resolved key [k] before it calls [process_file]: the call sees a
    disk with the file in place, the trace has the write before the
    call, and whatever the call leaves behind is what the handler leaves
    behind, on success and on failure alike (the handler has no step
    that removes the file). *)
Lemma upload_writes_then_parses (w : World Ext) (rag : RAGAnything) (file : UploadFile)
    (name : string) (data : bytes) (fs1 fs2 : gmap (list string) node) (k : list string) :
  rag_instance w = Some rag →
  filename file = Some name →
  read file = inr data →
  Path_mkdir (cwd w) (upload_dir cfg) (disk (sys w)) = inr fs1 →
  os_open_wb (cwd w) (file_path cfg name) fs1 = inr (k, fs2) →
  let s0 := mkSys (os_write k data fs2) (environ (sys w)) (stores (sys w)) in
  let r := process_file lib rag (str_path (file_path cfg name)) s0 in
  disk s0 !! k = Some (NFile data) ∧
  sys (snd (upload_file lib cfg file w)) = snd r ∧
  (∃ evs, new_events w (snd (upload_file lib cfg file w)) =
            [Mkdir (upload_dir cfg); OpenWb (file_path cfg name); ReadUpload;
             WriteFile k data; CloseFile k; Log INFO ("Processing file: " +:+ name);
             Call (CProcessFile (str_path (file_path cfg name)))] ++ evs) ∧
  match fst r with
  | inl e =>
      fst (upload_file lib cfg file w) =
        if exc_is_Exception e then HTTPError 500 (exc_str e) else Unhandled e
  | inr _ =>
      fst (upload_file lib cfg file w) =
        Returned [("status", JStr "success");
                  ("message", JStr ("File " +:+ name +:+ " processed successfully"));
                  ("filename", JStr name);
                  ("size", JInt (Z.of_nat (length data)))]
  end.
Proof.
  intros Hready Hname Hread Hmk Hopen. cbn zeta.
  split; [apply lookup_insert_eq|].
  unfold upload_file, try_except_500, upload_try. rewrite Hready.
  unfold mbind, M_bind, mkdir_p, truediv, open_wb, with_file, lib_call, log.
  unfold mbind, M_bind, file_read, file_write, mret, M_ret.
  rewrite Hname, Hread. cbn -[Path_mkdir os_open_wb upload_dir file_path str_path os_write].
  rewrite Hmk. cbn -[Path_mkdir os_open_wb upload_dir file_path str_path os_write].
  unfold file_path in *. rewrite Hopen.
  cbn -[Path_mkdir os_open_wb upload_dir file_path str_path os_write].
  destruct (process_file lib rag _ _) as [[e|[]] s1];
    cbn -[Path_mkdir os_open_wb upload_dir file_path str_path os_write].
  - destruct (exc_is_Exception e); cbn; (split; [done|]); (split; [trace_tail|done]).
  - split; [done|]. split; [trace_tail|done].
Qed.

(** X23.  For a plain file name the claim about the place holds: the file
    that [open] creates is [<working directory>/uploads/<name>]. *)
Lemma plain_name_stays_in_uploads (cwd k : list string) (fs fs' : gmap (list string) node)
    (name : string) :
  plain_name name →
  os_open_wb cwd (file_path cfg name) fs = inr (k, fs') →
  ∃ d, resolve cwd fs (Path (WORKING_DIR cfg)) = inr d ∧ k = d ++ ["uploads"; name].
Proof.
  intros (Hs & He & Hd & Hdd). unfold os_open_wb, file_path, upload_dir.
  rewrite (joinpath_plain _ name), (joinpath_plain _ "uploads") by done.
  unfold resolve. cbn [root parts]. rewrite !walk_snoc.
  destruct (walk fs _ (parts (Path (WORKING_DIR cfg)))) as [e|d]; [done|].
  destruct (lookup_node fs d) as [[|?]|]; [|done..].
  rewrite decide_False by done.
  destruct (lookup_node fs (d ++ ["uploads"])) as [[|?]|]; [|done..].
  rewrite decide_False by done.
  destruct (lookup_node fs ((d ++ ["uploads"]) ++ [name])) as [[|?]|];
    [done|intros [= <- _]..]; exists d; by rewrite <- app_assoc.
Qed.

End Facts.

(** * Further properties of the code *)

Section Coverage.

Context {Ext : Type} (lib : Library Ext) (cfg : Config).

(** ** Start-up with a complete configuration *)

(** The world in which the [try] block of [startup_event] starts. *)
Lemma startup_complete (w : World Ext) :
  complete cfg →
  startup_event lib cfg w =
    let w1 := emit (Mkdir (Path (WORKING_DIR cfg)))
                (emit (Log INFO "Starting LightRAG initialization...") w) in
    match Path_mkdir (cwd w) (Path (WORKING_DIR cfg)) (disk (sys w)) with
    | inl n => (inl (OSError n (str_path (Path (WORKING_DIR cfg)))), w1)
    | inr fs =>
        try_except (startup_try lib cfg)
          (λ e, log ERROR ("Failed to initialize RAG system: " +:+ exc_str e) ;; print_exc e)
          (emit (Log INFO ("Working directory: " +:+ WORKING_DIR cfg)) (set_disk fs w1))
    end.
Proof.
  intros (H1 & H2 & H3 & H4). unfold startup_event. rewrite H1, H2, H3, H4.
  unfold mbind, M_bind, mkdir_p, log. cbn -[Path_mkdir Path str_path startup_try].
  by destruct (Path_mkdir _ _ _).
Qed.

(** The [try] block, call by call. *)
Lemma startup_try_unfold (w : World Ext) :
  startup_try lib cfg w =
    let s0 := mkSys (disk (sys w)) (export_to cfg (environ (sys w))) (stores (sys w)) in
    let w0 :=
      emit (Call (CLightRAG (lightrag_core cfg)))
        (emit (Log INFO ("Connecting to PostgreSQL: "
                         +:+ slice_to 50 (the_str (POSTGRES_URI cfg)) +:+ "..."))
           (emit (Log INFO ("Connecting to Neo4j: " +:+ NEO4J_URI cfg))
              (emit (EnvUpdate (exported cfg)) (set_sys s0 w)))) in
    match LightRAG_init lib (lightrag_core cfg) s0 with
    | (inl e, s1) => (inl e, set_sys s1 w0)
    | (inr _, s1) =>
        let w1 := emit (Call (CInitializeStorages (lightrag_core cfg))) (set_sys s1 w0) in
        match initialize_storages lib (lightrag_core cfg) s1 with
        | (inl e, s2) => (inl e, set_sys s2 w1)
        | (inr _, s2) =>
            let w2 := emit (Call (CRAGAnything (rag_object cfg)))
                        (emit (Log INFO "Storage backends initialized") (set_sys s2 w1)) in
            match RAGAnything_init lib (rag_object cfg) s2 with
            | (inl e, s3) => (inl e, set_sys s3 w2)
            | (inr _, s3) =>
                (inr tt,
                 emit (Log INFO ("Vector DB: "
                                 +:+ slice_to 50 (the_str (POSTGRES_URI cfg)) +:+ "..."))
                   (emit (Log INFO ("Graph DB: " +:+ NEO4J_URI cfg))
                      (emit (Log INFO "RAG system fully initialized!")
                         (mkWorld (Some (rag_object cfg)) (cwd w) s3 (trace w2)))))
            end
        end
    end.
Proof.
  unfold startup_try, mbind, M_bind, environ_update, lib_call, log, assign_rag_instance,
    export_to, exported.
  cbn -[slice_to lightrag_core rag_object].
  destruct (LightRAG_init lib _ _) as [[e|[]] s1]; cbn -[slice_to lightrag_core rag_object];
    [done|].
  destruct (initialize_storages lib _ _) as [[e|[]] s2];
    cbn -[slice_to lightrag_core rag_object]; [done|].
  destruct (RAGAnything_init lib _ _) as [[e|[]] s3];
    cbn -[slice_to lightrag_core rag_object]; done.
Qed.

(** How the bookkeeping functions act on the fields of a world. *)
Lemma rag_instance_emit (e : event) (w : World Ext) : rag_instance (emit e w) = rag_instance w.
Proof. done. Qed.
Lemma cwd_emit (e : event) (w : World Ext) : cwd (emit e w) = cwd w.
Proof. done. Qed.
Lemma sys_emit (e : event) (w : World Ext) : sys (emit e w) = sys w.
Proof. done. Qed.
Lemma trace_emit (e : event) (w : World Ext) : trace (emit e w) = trace w ++ [e].
Proof. done. Qed.
Lemma rag_instance_set_sys (s : Sys Ext) (w : World Ext) :
  rag_instance (set_sys s w) = rag_instance w.
Proof. done. Qed.
Lemma cwd_set_sys (s : Sys Ext) (w : World Ext) : cwd (set_sys s w) = cwd w.
Proof. done. Qed.
Lemma sys_set_sys (s : Sys Ext) (w : World Ext) : sys (set_sys s w) = s.
Proof. done. Qed.
Lemma trace_set_sys (s : Sys Ext) (w : World Ext) : trace (set_sys s w) = trace w.
Proof. done. Qed.
Lemma rag_instance_set_disk (fs : gmap (list string) node) (w : World Ext) :
  rag_instance (set_disk fs w) = rag_instance w.
Proof. done. Qed.
Lemma cwd_set_disk (fs : gmap (list string) node) (w : World Ext) :
  cwd (set_disk fs w) = cwd w.
Proof. done. Qed.
Lemma sys_set_disk (fs : gmap (list string) node) (w : World Ext) :
  sys (set_disk fs w) = mkSys fs (environ (sys w)) (stores (sys w)).
Proof. done. Qed.
Lemma trace_set_disk (fs : gmap (list string) node) (w : World Ext) :
  trace (set_disk fs w) = trace w.
Proof. done. Qed.

Ltac fields :=
  repeat first
    [ rewrite rag_instance_emit | rewrite cwd_emit | rewrite sys_emit | rewrite trace_emit
    | rewrite rag_instance_set_sys | rewrite cwd_set_sys | rewrite sys_set_sys
    | rewrite trace_set_sys | rewrite rag_instance_set_disk | rewrite cwd_set_disk
    | rewrite sys_set_disk | rewrite trace_set_disk ];
  cbn [rag_instance cwd sys trace disk environ stores].

(** X1.  With a complete configuration, when the [mkdir] of the working
    directory and the three library calls succeed, [startup_event]
    returns with [rag_instance] set to the object built from the
    configuration: Neo4j graph storage, PostgreSQL vector and key-value
    storage, the [mineru] parser, and provider functions that carry the
    configured API key.  The libraries are called in the order
    [LightRAG(...)], [initialize_storages()], [RAGAnything(...)], each
    once, the first one in an environment that has the exports. *)
Theorem startup_builds_instance (w : World Ext) (fs : gmap (list string) node)
    (s1 s2 s3 : Sys Ext) :
  complete cfg →
  Path_mkdir (cwd w) (Path (WORKING_DIR cfg)) (disk (sys w)) = inr fs →
  LightRAG_init lib (lightrag_core cfg)
    (mkSys fs (export_to cfg (environ (sys w))) (stores (sys w))) = (inr tt, s1) →
  initialize_storages lib (lightrag_core cfg) s1 = (inr tt, s2) →
  RAGAnything_init lib (rag_object cfg) s2 = (inr tt, s3) →
  fst (startup_event lib cfg w) = inr tt ∧
  rag_instance (snd (startup_event lib cfg w)) = Some (rag_object cfg) ∧
  sys (snd (startup_event lib cfg w)) = s3 ∧
  calls_of (new_events w (snd (startup_event lib cfg w))) =
    [CLightRAG (lightrag_core cfg);
     CInitializeStorages (lightrag_core cfg);
     CRAGAnything (rag_object cfg)] ∧
  (graph_storage (lightrag (rag_object cfg)),
   vector_storage (lightrag (rag_object cfg)),
   kv_storage (lightrag (rag_object cfg)),
   parser (config (rag_object cfg)))
    = ("Neo4JStorage", "PGVectorStorage", "PGKVStorage", "mineru") ∧
  (pf_api_key (llm_model_func (lightrag (rag_object cfg))),
   pf_api_key (func (embedding_func (lightrag (rag_object cfg)))),
   pf_api_key (vision_model_func (rag_object cfg)))
    = (OPENROUTER_API_KEY cfg, OPENROUTER_API_KEY cfg, OPENROUTER_API_KEY cfg).
Proof.
  intros Hc Hmk H1 H2 H3. rewrite (startup_complete w Hc). cbv zeta. rewrite Hmk.
  unfold try_except. rewrite startup_try_unfold. cbv zeta. fields.
  rewrite H1. cbv beta iota. fields. rewrite H2. cbv beta iota. fields.
  rewrite H3. cbv beta iota. cbn [fst snd]. fields.
  split; [done|]. split; [done|]. split; [done|]. split; [|done].
  erewrite new_events_app; [|fields; rewrite <- ?app_assoc; reflexivity]. reflexivity.
Qed.

Lemma new_events_last2 (w w' : World Ext) (T : list event) (a b : event) :
  trace w' = (T ++ [a]) ++ [b] →
  (∃ evs, T = trace w ++ evs) →
  ∃ evs, new_events w w' = evs ++ [a; b].
Proof.
  intros H [evs ->]. exists evs. apply new_events_app. rewrite H.
  by rewrite <- !app_assoc.
Qed.

(** X2.  With a complete configuration and the working directory in
    place, when one of the three library calls raises [e]:
    [rag_instance] is left as it was; if [e] derives from [Exception]
    the hook swallows it and returns, its last two effects being the
    error message and the traceback; otherwise the hook raises [e]. *)
Theorem startup_swallows_library_failure (w : World Ext) (fs : gmap (list string) node)
    (e : PyExc) :
  complete cfg →
  Path_mkdir (cwd w) (Path (WORKING_DIR cfg)) (disk (sys w)) = inr fs →
  init_raises lib cfg (mkSys fs (export_to cfg (environ (sys w))) (stores (sys w))) e →
  fst (startup_event lib cfg w) = (if exc_is_Exception e then inr tt else inl e) ∧
  rag_instance (snd (startup_event lib cfg w)) = rag_instance w ∧
  (exc_is_Exception e = true →
   ∃ evs, new_events w (snd (startup_event lib cfg w)) =
            evs ++ [Log ERROR ("Failed to initialize RAG system: " +:+ exc_str e);
                    Traceback e]).
Proof.
  intros Hc Hmk Hraise. rewrite (startup_complete w Hc). cbv zeta. rewrite Hmk.
  unfold try_except. rewrite startup_try_unfold. cbv zeta. fields.
  destruct Hraise as [(s1 & H1)|[(s1 & s2 & H1 & H2)|(s1 & s2 & s3 & H1 & H2 & H3)]].
  - rewrite H1. cbv beta iota. destruct (exc_is_Exception e).
    + unfold mbind, M_bind, log, print_exc. cbv beta iota. cbn [fst snd]. fields.
      split; [done|]. split; [done|]. intros _.
      eapply new_events_last2; [fields; reflexivity|].
      eexists; rewrite <- ?app_assoc; reflexivity.
    + cbn [fst snd]. fields. done.
  - rewrite H1. cbv beta iota. fields. rewrite H2. cbv beta iota.
    destruct (exc_is_Exception e).
    + unfold mbind, M_bind, log, print_exc. cbv beta iota. cbn [fst snd]. fields.
      split; [done|]. split; [done|]. intros _.
      eapply new_events_last2; [fields; reflexivity|].
      eexists; rewrite <- ?app_assoc; reflexivity.
    + cbn [fst snd]. fields. done.
  - rewrite H1. cbv beta iota. fields. rewrite H2. cbv beta iota. fields.
    rewrite H3. cbv beta iota. destruct (exc_is_Exception e).
    + unfold mbind, M_bind, log, print_exc. cbv beta iota. cbn [fst snd]. fields.
      split; [done|]. split; [done|]. intros _.
      eapply new_events_last2; [fields; reflexivity|].
      eexists; rewrite <- ?app_assoc; reflexivity.
    + cbn [fst snd]. fields. done.
Qed.

(** X3.  The start-up stops at the first library call that raises: when
    [LightRAG(...)] raises, neither [initialize_storages] nor
    [RAGAnything(...)] is called; when [initialize_storages] raises,
    [RAGAnything(...)] is not constructed.  The system is left as the
    failing call left it. *)
Theorem startup_stops_at_first_failure (w : World Ext) (fs : gmap (list string) node)
    (e : PyExc) (s1 s2 : Sys Ext) :
  complete cfg →
  Path_mkdir (cwd w) (Path (WORKING_DIR cfg)) (disk (sys w)) = inr fs →
  (LightRAG_init lib (lightrag_core cfg)
     (mkSys fs (export_to cfg (environ (sys w))) (stores (sys w))) = (inl e, s1) →
   calls_of (new_events w (snd (startup_event lib cfg w))) = [CLightRAG (lightrag_core cfg)] ∧
   sys (snd (startup_event lib cfg w)) = s1) ∧
  (LightRAG_init lib (lightrag_core cfg)
     (mkSys fs (export_to cfg (environ (sys w))) (stores (sys w))) = (inr tt, s1) →
   initialize_storages lib (lightrag_core cfg) s1 = (inl e, s2) →
   calls_of (new_events w (snd (startup_event lib cfg w))) =
     [CLightRAG (lightrag_core cfg); CInitializeStorages (lightrag_core cfg)] ∧
   sys (snd (startup_event lib cfg w)) = s2).
Proof.
  intros Hc Hmk. rewrite (startup_complete w Hc). cbv zeta. rewrite Hmk.
  unfold try_except. rewrite startup_try_unfold. cbv zeta. fields.
  split.
  - intros H1. rewrite H1. cbv beta iota. destruct (exc_is_Exception e).
    + unfold mbind, M_bind, log, print_exc. cbv beta iota. cbn [fst snd]. fields.
      split; [|done].
      erewrite new_events_app; [|fields; rewrite <- ?app_assoc; reflexivity]. reflexivity.
    + cbn [fst snd]. fields. split; [|done].
      erewrite new_events_app; [|fields; rewrite <- ?app_assoc; reflexivity]. reflexivity.
  - intros H1 H2. rewrite H1. cbv beta iota. fields. rewrite H2. cbv beta iota.
    destruct (exc_is_Exception e).
    + unfold mbind, M_bind, log, print_exc. cbv beta iota. cbn [fst snd]. fields.
      split; [|done].
      erewrite new_events_app; [|fields; rewrite <- ?app_assoc; reflexivity]. reflexivity.
    + cbn [fst snd]. fields. split; [|done].
      erewrite new_events_app; [|fields; rewrite <- ?app_assoc; reflexivity]. reflexivity.
Qed.

(** ** Start-up without the libraries *)

(** With the libraries not imported, [startup_event] is: log, create the
    working directory, log, and report one failed check. *)
Lemma startup_unavailable (w : World Ext) :
  LIGHTRAG_AVAILABLE cfg = false →
  ∃ msg,
    startup_event lib cfg w =
      let w1 := emit (Mkdir (Path (WORKING_DIR cfg)))
                  (emit (Log INFO "Starting LightRAG initialization...") w) in
      match Path_mkdir (cwd w) (Path (WORKING_DIR cfg)) (disk (sys w)) with
      | inl e => (inl (OSError e (str_path (Path (WORKING_DIR cfg)))), w1)
      | inr fs =>
          (inr tt,
           emit (Log ERROR msg)
             (emit (Log INFO ("Working directory: " +:+ WORKING_DIR cfg)) (set_disk fs w1)))
      end.
Proof.
  intros Hoff. unfold startup_event, mbind, M_bind, mkdir_p, log. rewrite Hoff.
  cbn -[Path_mkdir Path str_path].
  destruct (truthy_str (OPENROUTER_API_KEY cfg));
    [destruct (truthy_str (NEO4J_PASSWORD cfg));
       [destruct (truthy_str (POSTGRES_URI cfg))|]|]; cbn -[Path_mkdir Path str_path].
  - exists "LightRAG modules not available!". by destruct (Path_mkdir _ _ _).
  - exists "POSTGRES_URI not set!". by destruct (Path_mkdir _ _ _).
  - exists "NEO4J_PASSWORD not set!". by destruct (Path_mkdir _ _ _).
  - exists "OPENROUTER_API_KEY not set!". by destruct (Path_mkdir _ _ _).
Qed.

(** X4.  When the guarded import of the libraries failed
    ([LIGHTRAG_AVAILABLE] is [False]), whatever the settings are, the
    start-up calls no library and leaves [rag_instance] at [None]; it is
    still [None] after any sequence of requests, and every insert, query
    or upload in it is answered with 503. *)
Theorem unavailable_never_ready (w : World Ext) (reqs : list request) :
  rag_instance w = None →
  LIGHTRAG_AVAILABLE cfg = false →
  rag_instance (snd (startup_event lib cfg w)) = None ∧
  calls_of (new_events w (snd (startup_event lib cfg w))) = [] ∧
  rag_instance (snd (run lib cfg reqs (snd (startup_event lib cfg w)))) = None ∧
  Forall2 (λ req o, is_operation req = true →
                    o = HTTPError 503 "RAG system not initialized")
    reqs (fst (run lib cfg reqs (snd (startup_event lib cfg w)))).
Proof.
  intros Hnone Hoff. destruct (startup_unavailable w Hoff) as [msg Hs].
  assert (rag_instance (snd (startup_event lib cfg w)) = None) as Hnone1.
  { rewrite Hs. cbv zeta. destruct (Path_mkdir _ _ _); cbn [snd]; fields; done. }
  destruct (run_not_ready lib cfg reqs _ Hnone1) as [Hw Ho].
  split; [done|]. split; [|split; [by rewrite Hw | done]].
  rewrite Hs. cbv zeta. destruct (Path_mkdir _ _ _); cbn [snd];
    (erewrite new_events_app; [|fields; rewrite <- ?app_assoc; reflexivity]); reflexivity.
Qed.

(** ** The exported environment *)

Lemma the_str_truthy (o : option string) : truthy_str o = true → Some (the_str o) = o.
Proof. by destruct o. Qed.

(** What [os.environ.update] of the four variables does to a lookup. *)
Lemma export_to_lookup (env : gmap string string) :
  truthy_str (NEO4J_PASSWORD cfg) = true →
  truthy_str (POSTGRES_URI cfg) = true →
  export_to cfg env !! "NEO4J_URI" = Some (NEO4J_URI cfg) ∧
  export_to cfg env !! "NEO4J_USERNAME" = Some (NEO4J_USERNAME cfg) ∧
  export_to cfg env !! "NEO4J_PASSWORD" = NEO4J_PASSWORD cfg ∧
  export_to cfg env !! "POSTGRES_URI" = POSTGRES_URI cfg ∧
  ∀ k, k ∉ ["NEO4J_URI"; "NEO4J_USERNAME"; "NEO4J_PASSWORD"; "POSTGRES_URI"] →
       export_to cfg env !! k = env !! k.
Proof.
  intros Hp Hu. unfold export_to, exported. cbn [foldl fst snd].
  repeat split.
  - do 3 (rewrite lookup_insert_ne by done). by rewrite lookup_insert_eq.
  - do 2 (rewrite lookup_insert_ne by done). by rewrite lookup_insert_eq.
  - rewrite lookup_insert_ne by done. rewrite lookup_insert_eq. by apply the_str_truthy.
  - rewrite lookup_insert_eq. by apply the_str_truthy.
  - intros k Hk. do 4 (rewrite lookup_insert_ne; [|intros <-; apply Hk; repeat constructor]).
    done.
Qed.

(** X5.  With a complete configuration and the working directory in
    place, the start-up exports [NEO4J_URI], [NEO4J_USERNAME],
    [NEO4J_PASSWORD] and [POSTGRES_URI] to the process environment
    before it touches the libraries.  For libraries whose initialisers
    leave the environment alone, the environment after the hook has
    these four variables at their configured values and every other
    variable as before, whether the libraries came up or raised. *)
Theorem startup_exports_credentials (w : World Ext) (fs : gmap (list string) node) :
  complete cfg →
  Path_mkdir (cwd w) (Path (WORKING_DIR cfg)) (disk (sys w)) = inr fs →
  init_keeps_environ lib →
  let env' := environ (sys (snd (startup_event lib cfg w))) in
  env' !! "NEO4J_URI" = Some (NEO4J_URI cfg) ∧
  env' !! "NEO4J_USERNAME" = Some (NEO4J_USERNAME cfg) ∧
  env' !! "NEO4J_PASSWORD" = NEO4J_PASSWORD cfg ∧
  env' !! "POSTGRES_URI" = POSTGRES_URI cfg ∧
  ∀ k, k ∉ ["NEO4J_URI"; "NEO4J_USERNAME"; "NEO4J_PASSWORD"; "POSTGRES_URI"] →
       env' !! k = environ (sys w) !! k.
Proof.
  intros Hc Hmk (K1 & K2 & K3).
  assert (environ (sys (snd (startup_event lib cfg w)))
          = export_to cfg (environ (sys w))) as ->.
  { rewrite (startup_complete w Hc). cbv zeta. rewrite Hmk.
    unfold try_except. rewrite startup_try_unfold. cbv zeta. fields.
    pose proof (K1 (lightrag_core cfg)
                  (mkSys fs (export_to cfg (environ (sys w))) (stores (sys w)))) as E1.
    destruct (LightRAG_init lib _ _) as [[e|[]] s1]; cbn [snd environ] in E1.
    { destruct (exc_is_Exception e);
        [unfold mbind, M_bind, log, print_exc; cbv beta iota|]; cbn [fst snd]; fields; done. }
    pose proof (K2 (lightrag_core cfg) s1) as E2.
    destruct (initialize_storages lib _ _) as [[e|[]] s2]; cbn [snd environ] in E2.
    { destruct (exc_is_Exception e);
        [unfold mbind, M_bind, log, print_exc; cbv beta iota|]; cbn [fst snd]; fields;
        congruence. }
    pose proof (K3 (rag_object cfg) s2) as E3.
    destruct (RAGAnything_init lib _ _) as [[e|[]] s3]; cbn [snd environ] in E3.
    { destruct (exc_is_Exception e);
        [unfold mbind, M_bind, log, print_exc; cbv beta iota|]; cbn [fst snd]; fields;
        congruence. }
    cbn [fst snd]. fields. congruence. }
  destruct Hc as (_ & Hp & Hu & _). by apply export_to_lookup.
Qed.

(** ** An existing working directory *)

(** [mkdir(parents=True, exist_ok=True)] of an existing directory
    succeeds and changes nothing. *)
Lemma Path_mkdir_existing (cwd0 : list string) (p : PurePath) (fs : gmap (list string) node) :
  is_dir cwd0 p fs = true → Path_mkdir cwd0 p fs = inr fs.
Proof.
  intros Hd. unfold Path_mkdir.
  assert ({| root := root p; parts := rev (rev (parts p)) |} = p) as Hp
    by (rewrite rev_involutive; by destruct p).
  assert (os_mkdir cwd0 p fs = inl EEXIST) as Hmk.
  { unfold os_mkdir. unfold is_dir in Hd. destruct (resolve cwd0 fs p) as [n|k]; [done|].
    by destruct (lookup_node fs k) as [[|?]|]. }
  destruct (rev (parts p)) as [|c rparent] eqn:Hr; cbn [mkdir_rec];
    rewrite Hp, Hmk, Hd; reflexivity.
Qed.

(** X6.  The [mkdir] of the start-up is idempotent: when the working
    directory already is a directory and a required setting is missing,
    the hook returns and leaves the disk exactly as it was. *)
Theorem startup_keeps_existing_directory (w : World Ext) :
  is_dir (cwd w) (Path (WORKING_DIR cfg)) (disk (sys w)) = true →
  missing_required cfg →
  fst (startup_event lib cfg w) = inr tt ∧
  disk (sys (snd (startup_event lib cfg w))) = disk (sys w).
Proof.
  intros Hd Hmiss. destruct (startup_missing lib cfg w Hmiss) as [msg ->]. cbv zeta.
  rewrite (Path_mkdir_existing _ _ _ Hd). cbn [fst snd]. fields. done.
Qed.

(** ** What the routes never change *)

Lemma keeps_ret {A : Type} (a : A) : keeps_globals (mret a : M Ext A).
Proof. done. Qed.

Lemma keeps_raise {A : Type} (e : PyExc) : keeps_globals (raise e : M Ext A).
Proof. done. Qed.

Lemma keeps_bind {A B : Type} (m : M Ext A) (k : A → M Ext B) :
  keeps_globals m → (∀ a, keeps_globals (k a)) → keeps_globals (m ≫= k).
Proof.
  intros Hm Hk w. unfold mbind, M_bind. destruct (Hm w) as [H1 H2].
  destruct (m w) as [[e|a] w1]; cbn [snd] in *; [done|].
  destruct (Hk a w1) as [H3 H4]. split; congruence.
Qed.

Lemma keeps_log (l : level) (msg : string) : keeps_globals (log l msg : M Ext unit).
Proof. done. Qed.

Lemma keeps_lib_call {A : Type} (c : call) (f : Sys Ext → (PyExc + A) * Sys Ext) :
  keeps_globals (lib_call c f).
Proof. done. Qed.

Lemma keeps_mkdir_p (p : PurePath) : keeps_globals (mkdir_p p : M Ext unit).
Proof. intros w. unfold mkdir_p. cbv zeta. by destruct (Path_mkdir _ _ _). Qed.

Lemma keeps_truediv (p : PurePath) (name : option string) :
  keeps_globals (truediv p name : M Ext PurePath).
Proof. by destruct name. Qed.

Lemma keeps_open_wb (p : PurePath) : keeps_globals (open_wb p : M Ext (list string)).
Proof. intros w. unfold open_wb. cbv zeta. by destruct (os_open_wb _ _ _) as [?|[??]]. Qed.

Lemma keeps_file_read (file : UploadFile) : keeps_globals (file_read file : M Ext bytes).
Proof. done. Qed.

Lemma keeps_file_write (k : list string) (data : bytes) :
  keeps_globals (file_write k data : M Ext unit).
Proof. done. Qed.

Lemma keeps_with_file {A : Type} (k : list string) (body : M Ext A) :
  keeps_globals body → keeps_globals (with_file k body).
Proof. intros Hb w. destruct (Hb w). done. Qed.

Lemma keeps_QueryResponse_new (a : pyval) (m : option string) :
  keeps_globals (QueryResponse_new lib a m).
Proof. by destruct a, m. Qed.

Lemma keeps_insert_try (rag : RAGAnything) (r : InsertRequest) :
  keeps_globals (insert_try lib rag r).
Proof.
  unfold insert_try. apply keeps_bind; [apply keeps_lib_call|]. intros _.
  apply keeps_bind; [apply keeps_log|]. intros _. apply keeps_ret.
Qed.

Lemma keeps_query_try (rag : RAGAnything) (r : QueryRequest) :
  keeps_globals (query_try lib rag r).
Proof.
  unfold query_try. cbv zeta. apply keeps_bind; [apply keeps_lib_call|]. intros a.
  apply keeps_bind; [apply keeps_log|]. intros _. apply keeps_QueryResponse_new.
Qed.

Lemma keeps_upload_try (rag : RAGAnything) (f : UploadFile) :
  keeps_globals (upload_try lib cfg rag f).
Proof.
  unfold upload_try.
  apply keeps_bind; [apply keeps_mkdir_p|]. intros _.
  apply keeps_bind; [apply keeps_truediv|]. intros path.
  apply keeps_bind; [apply keeps_open_wb|]. intros k.
  apply keeps_bind.
  { apply keeps_with_file. apply keeps_bind; [apply keeps_file_read|]. intros data.
    apply keeps_bind; [apply keeps_file_write|]. intros _. apply keeps_ret. }
  intros data. apply keeps_bind; [apply keeps_log|]. intros _.
  apply keeps_bind; [apply keeps_lib_call|]. intros _.
  apply keeps_bind; [apply keeps_log|]. intros _. apply keeps_ret.
Qed.

Lemma try_except_500_keeps {A : Type} (what : string) (body : M Ext A) (w : World Ext) :
  keeps_globals body →
  rag_instance (snd (try_except_500 what body w)) = rag_instance w ∧
  cwd (snd (try_except_500 what body w)) = cwd w.
Proof.
  intros Hb. unfold try_except_500. destruct (Hb w) as [H1 H2].
  destruct (body w) as [[e|a] w1]; [destruct (exc_is_Exception e)|]; done.
Qed.

(** One request changes neither the global nor the working directory of
    the process, and on a ready system it is not answered with 503. *)
Lemma serve_keeps (req : request) (w : World Ext) :
  rag_instance (snd (serve lib cfg req w)) = rag_instance w ∧
  cwd (snd (serve lib cfg req w)) = cwd w.
Proof.
  destruct req as [| |r|r|f]; cbn [serve snd prod_map]; [done..| | |];
    unfold insert_content, query_content, upload_file;
    destruct (rag_instance w) as [rag|] eqn:Hr; [|done| |done| |done]; cbn [snd id];
    rewrite <- Hr.
  - apply try_except_500_keeps, keeps_insert_try.
  - apply try_except_500_keeps, keeps_query_try.
  - apply try_except_500_keeps, keeps_upload_try.
Qed.

Lemma serve_ready_status (req : request) (w : World Ext) (rag : RAGAnything) :
  rag_instance w = Some rag →
  ∀ s d, fst (serve lib cfg req w) = HTTPError s d → s = 500%Z.
Proof.
  intros Hr s d. destruct req as [| |r|r|f]; cbn [serve fst prod_map]; [done..| | |];
    unfold insert_content, query_content, upload_file, try_except_500; rewrite Hr.
  - destruct (insert_try lib rag r w) as [[e|a] w1]; [destruct (exc_is_Exception e)|];
      cbn; congruence.
  - destruct (query_try lib rag r w) as [[e|a] w1]; [destruct (exc_is_Exception e)|];
      cbn; congruence.
  - destruct (upload_try lib cfg rag f w) as [[e|a] w1]; [destruct (exc_is_Exception e)|];
      cbn; congruence.
Qed.

(** X7.  No route assigns [rag_instance]: after any sequence of
    requests, with any behaviour of the libraries, the global and the
    working directory of the process are what they were.  So readiness
    is decided by the start-up alone. *)
Theorem run_keeps_readiness (reqs : list request) (w : World Ext) :
  rag_instance (snd (run lib cfg reqs w)) = rag_instance w ∧
  cwd (snd (run lib cfg reqs w)) = cwd w.
Proof.
  revert w. induction reqs as [|req reqs IH]; intros w; cbn [run]; [done|].
  destruct (serve_keeps req w) as [H1 H2].
  destruct (serve lib cfg req w) as [o w1]. cbn [snd] in H1, H2.
  destruct (IH w1) as [H3 H4]. destruct (run lib cfg reqs w1) as [os w2].
  cbn [snd] in *. split; congruence.
Qed.

(** X8.  Once the service is ready it stays ready: in any sequence of
    requests served from a world with [rag_instance] set, no request is
    answered with 503; the only [HTTPException] a route raises then has
    status 500. *)
Theorem ready_never_503 (reqs : list request) (w : World Ext) (rag : RAGAnything) :
  rag_instance w = Some rag →
  Forall (λ o, ∀ s d, o = HTTPError s d → s = 500%Z) (fst (run lib cfg reqs w)).
Proof.
  revert w. induction reqs as [|req reqs IH]; intros w Hr; cbn [run]; [constructor|].
  pose proof (serve_ready_status req w rag Hr) as Hs.
  destruct (serve_keeps req w) as [H1 _].
  destruct (serve lib cfg req w) as [o w1]. cbn [fst snd] in *.
  specialize (IH w1). rewrite H1 in IH. specialize (IH Hr).
  destruct (run lib cfg reqs w1) as [os w2]. cbn [fst] in *. by constructor.
Qed.

(** X9.  The two informational routes are read-only: a sequence of
    [GET /] and [GET /health] requests leaves the world exactly as it
    was, in any state of the service, and each is answered with a
    body. *)
Theorem informational_routes_read_only (reqs : list request) (w : World Ext) :
  Forall (λ req, is_operation req = false) reqs →
  snd (run lib cfg reqs w) = w ∧
  Forall (λ o, ∃ d, o = Returned (Body d)) (fst (run lib cfg reqs w)).
Proof.
  induction 1 as [|req reqs Hreq _ [IHw IHo]]; cbn [run]; [by split|].
  assert (∃ d, serve lib cfg req w = (Returned (Body d), w)) as [d ->]
    by (destruct req; [by eexists..|done|done|done]).
  destruct (run lib cfg reqs w) as [os w2]. cbn [fst snd] in *. split; [done|].
  constructor; [by exists d|done].
Qed.

(** ** The three operations, effect by effect *)

(** The [try] block of [upload_file], step by step. *)
Lemma upload_try_unfold (rag : RAGAnything) (file : UploadFile) (w : World Ext) :
  upload_try lib cfg rag file w =
    let w1 := emit (Mkdir (upload_dir cfg)) w in
    match Path_mkdir (cwd w) (upload_dir cfg) (disk (sys w)) with
    | inl n => (inl (OSError n (str_path (upload_dir cfg))), w1)
    | inr fs1 =>
        match filename file with
        | None =>
            (inl (mkExc "TypeError" true
                    "unsupported operand type(s) for /: 'PosixPath' and 'NoneType'"),
             set_disk fs1 w1)
        | Some name =>
            let w2 := emit (OpenWb (file_path cfg name)) (set_disk fs1 w1) in
            match os_open_wb (cwd w) (file_path cfg name) fs1 with
            | inl n => (inl (OSError n (str_path (file_path cfg name))), w2)
            | inr (k, fs2) =>
                let w3 := emit ReadUpload (set_disk fs2 w2) in
                match read file with
                | inl e => (inl e, emit (CloseFile k) w3)
                | inr data =>
                    let w4 :=
                      emit (Call (CProcessFile (str_path (file_path cfg name))))
                        (emit (Log INFO ("Processing file: " +:+ name))
                           (emit (CloseFile k)
                              (set_disk (os_write k data fs2)
                                 (emit (WriteFile k data) w3)))) in
                    match process_file lib rag (str_path (file_path cfg name))
                            (mkSys (os_write k data fs2) (environ (sys w)) (stores (sys w)))
                    with
                    | (inl e, s) => (inl e, set_sys s w4)
                    | (inr _, s) =>
                        (inr [("status", JStr "success");
                              ("message", JStr ("File " +:+ name +:+ " processed successfully"));
                              ("filename", JStr name);
                              ("size", JInt (Z.of_nat (length data)))],
                         emit (Log INFO ("File processed: " +:+ name)) (set_sys s w4))
                    end
                end
            end
        end
    end.
Proof.
  unfold upload_try, mbind, M_bind, mkdir_p, truediv, open_wb, with_file, lib_call, log.
  unfold mbind, M_bind, file_read, file_write, mret, M_ret, raise, file_path.
  cbn -[Path_mkdir os_open_wb upload_dir str_path os_write].
  destruct (Path_mkdir _ _ _) as [n|fs1]; [done|].
  destruct (filename file) as [name|]; [|done].
  cbn -[Path_mkdir os_open_wb upload_dir str_path os_write].
  destruct (os_open_wb _ _ _) as [n|[k fs2]]; [done|].
  destruct (read file) as [e|data]; [done|].
  cbn -[Path_mkdir os_open_wb upload_dir str_path os_write].
  destruct (process_file lib rag _ _) as [[e|[]] s1]; done.
Qed.

(** The [try] block of [insert_content], step by step. *)
Lemma insert_try_unfold (rag : RAGAnything) (r : InsertRequest) (w : World Ext) :
  insert_try lib rag r w =
    let w1 := emit (Call (CAinsert (content r))) w in
    match ainsert lib (lightrag rag) (content r) (sys w) with
    | (inl e, s) => (inl e, set_sys s w1)
    | (inr _, s) =>
        (inr [("status", JStr "success");
              ("message", JStr "Content indexed successfully");
              ("content_length", JInt (Z.of_nat (String.length (content r))))],
         emit (Log INFO ("Inserted content: " +:+ slice_to 100 (content r) +:+ "..."))
           (set_sys s w1))
    end.
Proof.
  unfold insert_try, mbind, M_bind, lib_call, log. cbn -[slice_to].
  by destruct (ainsert lib _ _ _) as [[e|[]] s1].
Qed.

(** Computes the calls among the new events of an explicit world. *)
Ltac count_calls :=
  cbn [fst snd prod_map id];
  (erewrite new_events_app; [|fields; rewrite <- ?app_assoc; reflexivity]);
  reflexivity.

(** X10.  On a ready system every request leads to at most one call
    into the libraries, never a retry: an insert calls [ainsert] exactly
    once with the whole content, a query calls [aquery] exactly once
    with the whole query text and the request's mode, an upload calls
    [process_file] at most once, on the path it wrote, and the two
    informational routes call nothing. *)
Theorem one_library_call_per_request (w : World Ext) (rag : RAGAnything) (req : request) :
  rag_instance w = Some rag →
  match req with
  | GetRoot | GetHealth =>
      calls_of (new_events w (snd (serve lib cfg req w))) = []
  | PostInsert r =>
      calls_of (new_events w (snd (serve lib cfg req w))) = [CAinsert (content r)]
  | PostQuery r =>
      calls_of (new_events w (snd (serve lib cfg req w)))
        = [CAquery (query r) {| param_mode := mode r |}]
  | PostUpload f =>
      calls_of (new_events w (snd (serve lib cfg req w))) = [] ∨
      ∃ name, filename f = Some name ∧
              calls_of (new_events w (snd (serve lib cfg req w)))
                = [CProcessFile (str_path (file_path cfg name))]
  end.
Proof.
  intros Hr. destruct req as [| |r|r|f]; cbn [serve snd prod_map id].
  - erewrite new_events_app; [|by rewrite app_nil_r]. reflexivity.
  - erewrite new_events_app; [|by rewrite app_nil_r]. reflexivity.
  - unfold insert_content, try_except_500. rewrite Hr, insert_try_unfold. cbv zeta.
    destruct (ainsert lib _ _ _) as [[e|[]] s1]; [destruct (exc_is_Exception e)|];
      count_calls.
  - unfold query_content, try_except_500. rewrite Hr, query_try_unfold. cbv zeta.
    destruct (aquery lib _ _ _ _) as [[e|a] s1]; cbn [fst snd].
    + destruct (exc_is_Exception e); count_calls.
    + destruct a as [a|], (mode r) as [m|]; cbn [QueryResponse_new];
        unfold mret, M_ret, raise; cbn [ValidationError exc_is_Exception]; count_calls.
  - unfold upload_file, try_except_500. rewrite Hr, upload_try_unfold. cbv zeta.
    destruct (Path_mkdir _ _ _) as [n|fs1].
    { left. destruct n; cbn [OSError exc_is_Exception]; count_calls. }
    destruct (filename f) as [name|]; [|left; cbn [exc_is_Exception]; count_calls].
    destruct (os_open_wb _ _ _) as [n|[k fs2]].
    { left. destruct n; cbn [OSError exc_is_Exception]; count_calls. }
    destruct (read f) as [e|data].
    { left. destruct (exc_is_Exception e); count_calls. }
    right. exists name. split; [done|].
    destruct (process_file lib rag _ _) as [[e|[]] s1]; [destruct (exc_is_Exception e)|];
      count_calls.
Qed.

(** X11.  On a ready system a query is answered with a response exactly
    when the engine returns a string and the request's mode is a string;
    every other case (the engine raises, it returns something that is no
    string, the mode is [null]) ends in an error. *)
Theorem query_succeeds_iff (w : World Ext) (rag : RAGAnything) (r : QueryRequest) :
  rag_instance w = Some rag →
  (∃ resp, fst (query_content lib r w) = Returned resp) ↔
  (∃ a m, fst (aquery lib (lightrag rag) (query r) {| param_mode := mode r |} (sys w))
            = inr (PStr a) ∧ mode r = Some m).
Proof.
  intros Hr. unfold query_content, try_except_500. rewrite Hr, query_try_unfold. cbv zeta.
  destruct (aquery lib _ _ _ _) as [[e|a] s1]; cbn [fst snd].
  - split; [|by intros (a & m & [=] & _)].
    destruct (exc_is_Exception e); by intros [resp [=]].
  - destruct a as [a|], (mode r) as [m|]; cbn; split;
      first [ by intros [resp [=]] | by intros (a' & m' & [=] & [=]) | by eauto ].
Qed.

(** X12.  A query whose response cannot be built has still run on the
    engine: when [aquery] returns but its result is no string or the
    mode is [null], the handler answers 500 with the validation message,
    and the stores are as the engine left them. *)
Theorem query_answer_discarded (w : World Ext) (rag : RAGAnything) (r : QueryRequest)
    (a : pyval) :
  rag_instance w = Some rag →
  fst (aquery lib (lightrag rag) (query r) {| param_mode := mode r |} (sys w)) = inr a →
  a = PNotStr ∨ mode r = None →
  (∃ fields, fst (query_content lib r w)
               = HTTPError 500 (validation_message lib "QueryResponse" fields)) ∧
  sys (snd (query_content lib r w))
    = snd (aquery lib (lightrag rag) (query r) {| param_mode := mode r |} (sys w)).
Proof.
  intros Hr Ha Hbad. unfold query_content, try_except_500.
  rewrite Hr, query_try_unfold. cbv zeta.
  destruct (aquery lib _ _ _ _) as [r0 s1]. cbn [fst snd] in *. subst r0.
  destruct a as [a|], (mode r) as [m|]; [by destruct Hbad|..]; cbn; eauto.
Qed.

(** [open(p, "wb")] leaves an empty file under the key it returns. *)
Lemma os_open_wb_truncates (cwd0 k : list string) (p : PurePath)
    (fs fs' : gmap (list string) node) :
  os_open_wb cwd0 p fs = inr (k, fs') → fs' !! k = Some (NFile []).
Proof.
  unfold os_open_wb. destruct (resolve cwd0 fs p) as [n|k']; [done|].
  destruct (lookup_node fs k') as [[|?]|]; [done|..]; intros [= <- <-];
    apply lookup_insert_eq.
Qed.

(** X13.  An upload without a file name fails on the path join, after
    the uploads directory has been created: the answer is 500 with the
    [TypeError]'s text, the directory exists, no file was opened and the
    parser was not called. *)
Theorem upload_without_filename (w : World Ext) (rag : RAGAnything) (f : UploadFile)
    (fs1 : gmap (list string) node) :
  rag_instance w = Some rag →
  filename f = None →
  Path_mkdir (cwd w) (upload_dir cfg) (disk (sys w)) = inr fs1 →
  fst (upload_file lib cfg f w)
    = HTTPError 500 "unsupported operand type(s) for /: 'PosixPath' and 'NoneType'" ∧
  disk (sys (snd (upload_file lib cfg f w))) = fs1 ∧
  is_dir (cwd w) (upload_dir cfg) fs1 = true ∧
  new_events w (snd (upload_file lib cfg f w)) =
    [Mkdir (upload_dir cfg);
     Log ERROR ("File upload failed: "
                +:+ "unsupported operand type(s) for /: 'PosixPath' and 'NoneType'")].
Proof.
  intros Hr Hname Hmk. unfold upload_file, try_except_500.
  rewrite Hr, upload_try_unfold. cbv zeta. rewrite Hmk, Hname.
  cbn [exc_is_Exception exc_str fst snd]. fields.
  split; [done|]. split; [done|]. split; [by eapply Path_mkdir_is_dir|].
  apply new_events_app. fields. by rewrite <- ?app_assoc.
Qed.

(** X14.  An upload whose body cannot be read has already truncated its
    target: [open(..., "wb")] ran before [file.read()], so when the read
    raises, the file under the resolved key is left empty (whatever it
    held before), it is closed, the parser is not called and the answer
    is 500 with the error's text. *)
Theorem upload_read_failure_truncates (w : World Ext) (rag : RAGAnything) (f : UploadFile)
    (name : string) (fs1 fs2 : gmap (list string) node) (k : list string) (e : PyExc) :
  rag_instance w = Some rag →
  filename f = Some name →
  Path_mkdir (cwd w) (upload_dir cfg) (disk (sys w)) = inr fs1 →
  os_open_wb (cwd w) (file_path cfg name) fs1 = inr (k, fs2) →
  read f = inl e →
  exc_is_Exception e = true →
  fst (upload_file lib cfg f w) = HTTPError 500 (exc_str e) ∧
  disk (sys (snd (upload_file lib cfg f w))) = fs2 ∧
  fs2 !! k = Some (NFile []) ∧
  new_events w (snd (upload_file lib cfg f w)) =
    [Mkdir (upload_dir cfg); OpenWb (file_path cfg name); ReadUpload; CloseFile k;
     Log ERROR ("File upload failed: " +:+ exc_str e)].
Proof.
  intros Hr Hname Hmk Hopen Hread Hexc. unfold upload_file, try_except_500.
  rewrite Hr, upload_try_unfold. cbv zeta. rewrite Hmk, Hname, Hopen, Hread, Hexc.
  cbn [fst snd]. fields.
  split; [done|]. split; [done|]. split; [by eapply os_open_wb_truncates|].
  apply new_events_app. fields. by rewrite <- ?app_assoc.
Qed.

(** X15.  An upload whose target cannot be opened (a missing parent
    directory, a directory of that name, ...) is refused before the body
    is read: the answer is 500 with the [OSError]'s text, the disk holds
    the uploads directory and nothing else new, the body was not read
    and the parser was not called. *)
Theorem upload_open_failure_reads_nothing (w : World Ext) (rag : RAGAnything)
    (f : UploadFile) (name : string) (fs1 : gmap (list string) node) (n : errno) :
  rag_instance w = Some rag →
  filename f = Some name →
  Path_mkdir (cwd w) (upload_dir cfg) (disk (sys w)) = inr fs1 →
  os_open_wb (cwd w) (file_path cfg name) fs1 = inl n →
  fst (upload_file lib cfg f w)
    = HTTPError 500 (exc_str (OSError n (str_path (file_path cfg name)))) ∧
  disk (sys (snd (upload_file lib cfg f w))) = fs1 ∧
  new_events w (snd (upload_file lib cfg f w)) =
    [Mkdir (upload_dir cfg); OpenWb (file_path cfg name);
     Log ERROR ("File upload failed: "
                +:+ exc_str (OSError n (str_path (file_path cfg name))))].
Proof.
  intros Hr Hname Hmk Hopen. unfold upload_file, try_except_500.
  rewrite Hr, upload_try_unfold. cbv zeta. rewrite Hmk, Hname, Hopen.
  assert (exc_is_Exception (OSError n (str_path (file_path cfg name))) = true) as ->
    by (by destruct n).
  cbn [fst snd]. fields. split; [done|]. split; [done|].
  apply new_events_app. fields. by rewrite <- ?app_assoc.
Qed.

(** X16.  The [mkdir] of the working directory is outside the [try] of
    the start-up: when it fails, whatever the configuration is, the
    hook raises the [OSError] (an [Exception], yet not swallowed), after
    one log line and the [mkdir] attempt; nothing is validated, no
    library is called, and [rag_instance] and the system are left as
    they were. *)
Theorem startup_mkdir_failure_escapes (w : World Ext) (n : errno) :
  Path_mkdir (cwd w) (Path (WORKING_DIR cfg)) (disk (sys w)) = inl n →
  fst (startup_event lib cfg w) = inl (OSError n (str_path (Path (WORKING_DIR cfg)))) ∧
  exc_is_Exception (OSError n (str_path (Path (WORKING_DIR cfg)))) = true ∧
  rag_instance (snd (startup_event lib cfg w)) = rag_instance w ∧
  sys (snd (startup_event lib cfg w)) = sys w ∧
  new_events w (snd (startup_event lib cfg w)) =
    [Log INFO "Starting LightRAG initialization..."; Mkdir (Path (WORKING_DIR cfg))].
Proof.
  intros Hmk. unfold startup_event, mbind, M_bind, mkdir_p, log.
  cbn -[Path_mkdir Path str_path]. rewrite Hmk. cbn [fst snd]. fields.
  split; [done|]. split; [by destruct n|]. split; [done|]. split; [done|].
  apply new_events_app. fields. by rewrite <- ?app_assoc.
Qed.

(** [s[:n]] is a prefix of [s] of length [min n (len s)]. *)
Lemma slice_to_prefix (n : nat) (s : string) :
  ∃ t, s = slice_to n s +:+ t ∧ String.length (slice_to n s) = n `min` String.length s.
Proof.
  unfold slice_to. revert s. induction n as [|n IH]; intros s.
  - exists s. by destruct s.
  - destruct s as [|c s]; [by exists ""|].
    destruct (IH s) as (t & Ht & Hl). exists t. split.
    + change (String c s = String c (substring 0 n s +:+ t)). by f_equal.
    + change (S (String.length (substring 0 n s)) = S (n `min` String.length s)).
      by f_equal.
Qed.

(** X17.  A successful insert logs a bounded snippet, never the whole
    of a long content: its two effects are the call of [ainsert] with
    the whole content and one log line whose snippet is a prefix of the
    content of length [min 100 (len content)]. *)
Theorem insert_log_bounded (w : World Ext) (rag : RAGAnything) (r : InsertRequest) :
  rag_instance w = Some rag →
  fst (ainsert lib (lightrag rag) (content r) (sys w)) = inr tt →
  ∃ snippet rest,
    new_events w (snd (insert_content lib r w)) =
      [Call (CAinsert (content r));
       Log INFO ("Inserted content: " +:+ snippet +:+ "...")] ∧
    content r = snippet +:+ rest ∧
    String.length snippet = 100 `min` String.length (content r).
Proof.
  intros Hr Hok. destruct (slice_to_prefix 100 (content r)) as (t & Ht & Hl).
  exists (slice_to 100 (content r)), t. split; [|done].
  unfold insert_content, try_except_500. rewrite Hr, insert_try_unfold. cbv zeta.
  destruct (ainsert lib _ _ _) as [[e|[]] s1]; [done|]. cbn [fst snd].
  apply new_events_app. fields. by rewrite <- ?app_assoc.
Qed.

(** X18.  The exports of the start-up and the reads of the module
    agree on the names: a process that reads its configuration from the
    environment the start-up leaves (lines 32-35 after lines 139-144)
    gets the same four database settings back, whatever the environment
    held before. *)
Theorem export_then_reload (env : gmap string string) (dim : Z) (available : bool) :
  truthy_str (NEO4J_PASSWORD cfg) = true →
  truthy_str (POSTGRES_URI cfg) = true →
  let cfg' := module_globals (export_to cfg env) dim available in
  NEO4J_URI cfg' = NEO4J_URI cfg ∧
  NEO4J_USERNAME cfg' = NEO4J_USERNAME cfg ∧
  NEO4J_PASSWORD cfg' = NEO4J_PASSWORD cfg ∧
  POSTGRES_URI cfg' = POSTGRES_URI cfg ∧
  OPENROUTER_API_KEY cfg' = OPENROUTER_API_KEY (module_globals env dim available) ∧
  WORKING_DIR cfg' = WORKING_DIR (module_globals env dim available).
Proof.
  intros Hp Hu. destruct (export_to_lookup env Hp Hu) as (E1 & E2 & E3 & E4 & E5).
  cbv zeta. unfold module_globals, getenv_default, getenv.
  cbn [NEO4J_URI NEO4J_USERNAME NEO4J_PASSWORD POSTGRES_URI OPENROUTER_API_KEY WORKING_DIR].
  rewrite E1, E2, E3, E4. rewrite !E5; [done|..];
    intros H; repeat (apply elem_of_cons in H as [[=]|H]); by apply elem_of_nil in H.
Qed.

(** X19.  A file name that begins with a slash replaces the uploads
    directory altogether: for every configuration, the path the upload
    opens is the name itself, and the working directory plays no part
    in it. *)
Theorem absolute_name_replaces_upload_dir (name : string) :
  leading_slashes name ≠ 0 →
  file_path cfg name = Path name.
Proof.
  intros Hn. unfold file_path, joinpath. cbv zeta.
  destruct (decide (root (Path name) = "")) as [He|]; [|done].
  exfalso. unfold Path in He. cbn [root] in He.
  by destruct (leading_slashes name) as [|[|[|?]]].
Qed.

(** What the start-up leaves in [rag_instance], by the outcome of the
    three library calls. *)
Lemma startup_rag_instance (w : World Ext) (fs : gmap (list string) node) :
  complete cfg →
  Path_mkdir (cwd w) (Path (WORKING_DIR cfg)) (disk (sys w)) = inr fs →
  rag_instance (snd (startup_event lib cfg w)) =
    match LightRAG_init lib (lightrag_core cfg)
            (mkSys fs (export_to cfg (environ (sys w))) (stores (sys w))) with
    | (inl _, _) => rag_instance w
    | (inr _, s1) =>
        match initialize_storages lib (lightrag_core cfg) s1 with
        | (inl _, _) => rag_instance w
        | (inr _, s2) =>
            match RAGAnything_init lib (rag_object cfg) s2 with
            | (inl _, _) => rag_instance w
            | (inr _, _) => Some (rag_object cfg)
            end
        end
    end.
Proof.
  intros Hc Hmk. rewrite (startup_complete w Hc). cbv zeta. rewrite Hmk.
  unfold try_except. rewrite startup_try_unfold. cbv zeta. fields.
  destruct (LightRAG_init lib _ _) as [[e|[]] s1].
  { destruct (exc_is_Exception e);
      [unfold mbind, M_bind, log, print_exc; cbv beta iota|]; cbn [fst snd]; fields; done. }
  destruct (initialize_storages lib _ _) as [[e|[]] s2].
  { destruct (exc_is_Exception e);
      [unfold mbind, M_bind, log, print_exc; cbv beta iota|]; cbn [fst snd]; fields; done. }
  destruct (RAGAnything_init lib _ _) as [[e|[]] s3].
  { destruct (exc_is_Exception e);
      [unfold mbind, M_bind, log, print_exc; cbv beta iota|]; cbn [fst snd]; fields; done. }
  cbn [fst snd]. fields. done.
Qed.

(** X20.  The health endpoint tells whether the start-up went through:
    after a start-up from the initial state ([rag_instance] is [None])
    with a complete configuration and the working directory in place,
    the health body is the "healthy" one exactly when all three library
    calls returned; if any of them raised it is not. *)
Theorem health_reports_startup (w : World Ext) (fs : gmap (list string) node) :
  complete cfg →
  Path_mkdir (cwd w) (Path (WORKING_DIR cfg)) (disk (sys w)) = inr fs →
  rag_instance w = None →
  health_check cfg (snd (startup_event lib cfg w)) =
    [("status", JStr "healthy");
     ("rag_initialized", JBool true);
     ("neo4j_uri", JStr (NEO4J_URI cfg));
     ("lightrag_available", JBool true)]
  ↔ ∃ s1 s2 s3,
      LightRAG_init lib (lightrag_core cfg)
        (mkSys fs (export_to cfg (environ (sys w))) (stores (sys w))) = (inr tt, s1) ∧
      initialize_storages lib (lightrag_core cfg) s1 = (inr tt, s2) ∧
      RAGAnything_init lib (rag_object cfg) s2 = (inr tt, s3).
Proof.
  intros Hc Hmk Hnone. unfold health_check. rewrite (startup_rag_instance w fs Hc Hmk).
  destruct Hc as (_ & _ & _ & ->). rewrite Hnone.
  destruct (LightRAG_init lib _ _) as [[e|[]] s1];
    [split; [intros [=] | intros (? & ? & ? & [=] & _)]|].
  destruct (initialize_storages lib _ s1) as [[e|[]] s2] eqn:E2.
  { split; [intros [=] | intros (? & ? & ? & [= <-] & H2 & _); congruence]. }
  destruct (RAGAnything_init lib _ s2) as [[e|[]] s3] eqn:E3.
  { split; [intros [=] | intros (? & ? & ? & [= <-] & H2 & H3)].
    rewrite E2 in H2. injection H2 as <-. congruence. }
  split; [intros _; by exists s1, s2, s3 | done].
Qed.

(** X21.  The [description] of an insert request is accepted and never
    used: two requests with the same content get the same answer and
    have the same effects, whatever their descriptions are. *)
Theorem insert_ignores_description (w : World Ext) (r1 r2 : InsertRequest) :
  content r1 = content r2 →
  insert_content lib r1 w = insert_content lib r2 w.
Proof.
  intros H. unfold insert_content, insert_try. by rewrite H.
Qed.

End Coverage.

(** * The concrete deployment *)

Lemma started_ready : rag_instance started = Some (rag_object good_cfg).
Proof. vm_compute. reflexivity. Qed.

Lemma degraded_not_ready : rag_instance degraded = None.
Proof. vm_compute. reflexivity. Qed.

Lemma no_key_missing : missing_required no_key_cfg.
Proof. left. left. vm_compute. reflexivity. Qed.

(** ** Where the code departs from the specification *)

(** C1, counterexample.  The mode ["mix"] is none of the four; on the
    started system the handler nevertheless calls the engine with it and
    returns the engine's answer. *)
Lemma invalid_mode_reaches_engine :
  ¬ invalid_mode_rejected (stub_lib None) started (QueryRequest_new "q" (Some (Some "mix"))).
Proof.
  unfold invalid_mode_rejected. intros H.
  destruct H as [(s & d & Hresp) _].
  - intros m [= <-]. unfold valid_modes. intros Hin.
    repeat (apply elem_of_cons in Hin as [[=]|Hin]). by apply elem_of_nil in Hin.
  - vm_compute in Hresp. discriminate.
Qed.

(** C4, counterexample.  The receipt for the sentence does not carry
    [content_length] 30. *)
Lemma paris_receipt_is_not_30 : ¬ paris_receipt_30 (stub_lib None) started.
Proof.
  unfold paris_receipt_30. intros (d & Hd & _ & Hlen).
  vm_compute in Hd. injection Hd as <-. vm_compute in Hlen. discriminate.
Qed.

(** C6, counterexample.  The health body has no [graph_uri] or
    [providers_available] field. *)
Lemma health_shape_differs : ¬ health_shape_of_spec good_cfg fresh.
Proof. unfold health_shape_of_spec. vm_compute. discriminate. Qed.

(** C7, at a failing input.  An upload named ["../../../notes.txt"]
    whose parsing fails: the bytes are written, completely and before
    [process_file] is called, to [/app/notes.txt], which is not under
    the working directory [/app/data/rag_storage]; after the 500
    response the file is still there, and the working directory holds
    nothing but directories. *)
Theorem upload_escapes_working_dir :
  let file := {| filename := Some "../../../notes.txt"; read := inr hi |} in
  let r := upload_file (stub_lib (Some parse_failed)) good_cfg file started in
  fst r = HTTPError 500 "parse failed" ∧
  new_events started (snd r) =
    [Mkdir (Path "./data/rag_storage/uploads");
     OpenWb (Path "./data/rag_storage/uploads/../../../notes.txt");
     ReadUpload;
     WriteFile ["app"; "notes.txt"] hi;
     CloseFile ["app"; "notes.txt"];
     Log INFO "Processing file: ../../../notes.txt";
     Call (CProcessFile "data/rag_storage/uploads/../../../notes.txt");
     Log ERROR "File upload failed: parse failed"] ∧
  disk (sys (snd r)) !! ["app"; "notes.txt"] = Some (NFile hi) ∧
  resolve ["app"] (disk (sys (snd r))) (Path (WORKING_DIR good_cfg))
    = inr ["app"; "data"; "rag_storage"] ∧
  ¬ under ["app"] (disk (sys (snd r))) (Path (WORKING_DIR good_cfg)) ["app"; "notes.txt"] ∧
  map_Forall (λ k n, ["app"; "data"; "rag_storage"] `prefix_of` k → n = NDir)
    (disk (sys (snd r))).
Proof.
  cbn zeta. split; [vm_compute; reflexivity|]. split; [vm_compute; reflexivity|].
  split; [vm_compute; reflexivity|]. split; [vm_compute; reflexivity|]. split.
  - intros (d & Hd & Hpre). vm_compute in Hd. injection Hd as <-.
    destruct Hpre as [k Hk]. discriminate.
  - apply map_Forall_to_list. vm_compute.
    repeat constructor; cbn; intros [k Hk]; first [reflexivity | discriminate].
Qed.

(** C10, at a failing input.  Two uploads named ["/tmp/x.txt"]: the
    joined path is [/tmp/x.txt] itself, both uploads succeed and write
    there, the second over the first, and the uploads directory
    [/app/data/rag_storage/uploads] stays empty. *)
Theorem upload_absolute_name_leaves_uploads :
  let f1 := {| filename := Some "/tmp/x.txt"; read := inr hi |} in
  let f2 := {| filename := Some "/tmp/x.txt"; read := inr bye |} in
  let r1 := upload_file (stub_lib None) good_cfg f1 started in
  let r2 := upload_file (stub_lib None) good_cfg f2 (snd r1) in
  file_path good_cfg "/tmp/x.txt" = Path "/tmp/x.txt" ∧
  fst r1 = Returned [("status", JStr "success");
                     ("message", JStr "File /tmp/x.txt processed successfully");
                     ("filename", JStr "/tmp/x.txt");
                     ("size", JInt 2)] ∧
  fst r2 = Returned [("status", JStr "success");
                     ("message", JStr "File /tmp/x.txt processed successfully");
                     ("filename", JStr "/tmp/x.txt");
                     ("size", JInt 3)] ∧
  disk (sys (snd r1)) !! ["tmp"; "x.txt"] = Some (NFile hi) ∧
  disk (sys (snd r2)) !! ["tmp"; "x.txt"] = Some (NFile bye) ∧
  resolve ["app"] (disk (sys (snd r2))) (upload_dir good_cfg)
    = inr ["app"; "data"; "rag_storage"; "uploads"] ∧
  ¬ under ["app"] (disk (sys (snd r2))) (upload_dir good_cfg) ["tmp"; "x.txt"] ∧
  map_Forall (λ k n, ["app"; "data"; "rag_storage"; "uploads"] `prefix_of` k → n = NDir)
    (disk (sys (snd r2))).
Proof.
  cbn zeta. do 6 (split; [vm_compute; reflexivity|]). split.
  - intros (d & Hd & Hpre). vm_compute in Hd. injection Hd as <-.
    destruct Hpre as [k Hk]. discriminate.
  - apply map_Forall_to_list. vm_compute.
    repeat constructor; cbn; intros [k Hk]; first [reflexivity | discriminate].
Qed.

(** ** The theorems at concrete inputs *)

Lemma not_ready_is_503_witness :
  rag_instance fresh = None ∧
  insert_content (stub_lib None) {| content := paris; description := None |} fresh
    = (HTTPError 503 "RAG system not initialized", fresh) ∧
  query_content (stub_lib None) (QueryRequest_new "What is the capital of France?" None) fresh
    = (HTTPError 503 "RAG system not initialized", fresh) ∧
  upload_file (stub_lib None) good_cfg {| filename := Some "a.txt"; read := inr hi |} fresh
    = (HTTPError 503 "RAG system not initialized", fresh).
Proof.
  split; [reflexivity|].
  apply (not_ready_is_503 (stub_lib None) good_cfg fresh). reflexivity.
Defined.

Lemma insert_receipt_witness :
  rag_instance started = Some (rag_object good_cfg) ∧
  ainsert (stub_lib None) (lightrag (rag_object good_cfg)) paris (sys started)
    = (inr tt, sys started) ∧
  ∃ d, fst (insert_content (stub_lib None) {| content := paris; description := None |} started)
         = Returned d ∧
       d.*1 = ["status"; "message"; "content_length"] ∧
       dict_get d "status" = Some (JStr "success") ∧
       dict_get d "content_length" = Some (JInt (Z.of_nat (String.length paris))) ∧
       (paris = paris → dict_get d "content_length" = Some (JInt 31)).
Proof.
  split; [exact started_ready|]. split; [reflexivity|].
  apply (insert_receipt (stub_lib None) started (rag_object good_cfg)
           {| content := paris; description := None |} (sys started));
    [exact started_ready | reflexivity].
Defined.

Lemma query_forwards_any_mode_witness :
  rag_instance started = Some (rag_object good_cfg) ∧
  (∃ evs, new_events started
            (snd (query_content (stub_lib None) (QueryRequest_new "q" (Some (Some "mix"))) started))
          = Call (CAquery "q" {| param_mode := Some "mix" |}) :: evs) ∧
  fst (query_content (stub_lib None) (QueryRequest_new "q" (Some (Some "mix"))) started)
    = Returned {| answer := "Paris"; resp_mode := "mix" |}.
Proof.
  split; [exact started_ready|].
  destruct (query_forwards_any_mode (stub_lib None) started (rag_object good_cfg)
              (QueryRequest_new "q" (Some (Some "mix"))) started_ready) as [Hcall Hret].
  split; [exact Hcall|]. apply Hret; reflexivity.
Defined.

Lemma query_response_mode_witness :
  let req := QueryRequest_new "What is the capital of France?" None in
  let resp := {| answer := "Paris"; resp_mode := "hybrid" |} in
  let w' := snd (query_content (stub_lib None) req started) in
  query_content (stub_lib None) req started = (Returned resp, w') ∧
  mode req = Some (resp_mode resp) ∧
  ∃ rag, rag_instance started = Some rag ∧
         Call (CAquery (query req) {| param_mode := Some (resp_mode resp) |})
           ∈ new_events started w' ∧
         fst (aquery (stub_lib None) (lightrag rag) (query req)
                {| param_mode := Some (resp_mode resp) |} (sys started))
           = inr (PStr (answer resp)).
Proof.
  cbn zeta.
  assert (query_content (stub_lib None)
            (QueryRequest_new "What is the capital of France?" None) started
          = (Returned {| answer := "Paris"; resp_mode := "hybrid" |},
             snd (query_content (stub_lib None)
                    (QueryRequest_new "What is the capital of France?" None) started)))
    as Hq by (vm_compute; reflexivity).
  split; [exact Hq|].
  exact (proj2 (query_response_mode (stub_lib None) started
                  (QueryRequest_new "What is the capital of France?" None)) _ _ Hq).
Defined.

Lemma missing_config_never_ready_witness :
  let reqs := [PostInsert {| content := paris; description := None |};
               GetHealth;
               PostQuery (QueryRequest_new "q" None);
               PostUpload {| filename := Some "a.txt"; read := inr hi |}] in
  let w1 := snd (startup_event (stub_lib None) no_key_cfg fresh) in
  rag_instance fresh = None ∧
  missing_required no_key_cfg ∧
  rag_instance w1 = None ∧
  forallb (λ e, negb (is_call e)) (new_events fresh w1) = true ∧
  stores (sys w1) = stores (sys fresh) ∧
  rag_instance (snd (run (stub_lib None) no_key_cfg reqs w1)) = None ∧
  Forall2 (λ req o, is_operation req = true →
                    o = HTTPError 503 "RAG system not initialized")
    reqs (fst (run (stub_lib None) no_key_cfg reqs w1)).
Proof.
  cbn zeta. split; [reflexivity|]. split; [exact no_key_missing|].
  apply (missing_config_never_ready (stub_lib None) no_key_cfg fresh);
    [reflexivity | exact no_key_missing].
Defined.

Lemma working_dir_created_before_validation_witness :
  missing_required no_key_cfg ∧
  rag_instance (snd (startup_event (stub_lib None) no_key_cfg fresh)) = rag_instance fresh ∧
  match fst (startup_event (stub_lib None) no_key_cfg fresh) with
  | inr _ =>
      is_dir (cwd fresh) (Path (WORKING_DIR no_key_cfg))
        (disk (sys (snd (startup_event (stub_lib None) no_key_cfg fresh)))) = true ∧
      ∃ msg, new_events fresh (snd (startup_event (stub_lib None) no_key_cfg fresh)) =
               [Log INFO "Starting LightRAG initialization...";
                Mkdir (Path (WORKING_DIR no_key_cfg));
                Log INFO ("Working directory: " +:+ WORKING_DIR no_key_cfg);
                Log ERROR msg]
  | inl e =>
      (∃ n, Path_mkdir (cwd fresh) (Path (WORKING_DIR no_key_cfg)) (disk (sys fresh)) = inl n ∧
            e = OSError n (str_path (Path (WORKING_DIR no_key_cfg)))) ∧
      new_events fresh (snd (startup_event (stub_lib None) no_key_cfg fresh)) =
        [Log INFO "Starting LightRAG initialization...";
         Mkdir (Path (WORKING_DIR no_key_cfg))]
  end.
Proof.
  split; [exact no_key_missing|].
  exact (working_dir_created_before_validation (stub_lib None) no_key_cfg fresh
           no_key_missing).
Defined.

(** The start-up without API key does return, and leaves the directory
    behind. *)
Lemma degraded_has_working_dir :
  fst (startup_event (stub_lib None) no_key_cfg fresh) = inr tt ∧
  is_dir ["app"] (Path "./data/rag_storage") (disk (sys degraded)) = true ∧
  new_events fresh degraded =
    [Log INFO "Starting LightRAG initialization...";
     Mkdir (Path "./data/rag_storage");
     Log INFO "Working directory: ./data/rag_storage";
     Log ERROR "OPENROUTER_API_KEY not set!"].
Proof. repeat split; vm_compute; reflexivity. Qed.

Lemma failures_become_500_witness :
  let lib := stub_lib (Some parse_failed) in
  let r := {| content := paris; description := None |} in
  let w' := snd (insert_try lib (rag_object good_cfg) r started) in
  rag_instance started = Some (rag_object good_cfg) ∧
  exc_is_Exception parse_failed = true ∧
  insert_try lib (rag_object good_cfg) r started = (inl parse_failed, w') ∧
  insert_content lib r started =
    (HTTPError 500 "parse failed", emit (Log ERROR "Insert failed: parse failed") w') ∧
  fst (serve lib good_cfg (PostUpload {| filename := None; read := inr hi |}) started)
    ≠ Unhandled parse_failed.
Proof.
  cbn zeta.
  assert (insert_try (stub_lib (Some parse_failed)) (rag_object good_cfg)
            {| content := paris; description := None |} started
          = (inl parse_failed,
             snd (insert_try (stub_lib (Some parse_failed)) (rag_object good_cfg)
                    {| content := paris; description := None |} started)))
    as Ht by (vm_compute; reflexivity).
  destruct (failures_become_500 (stub_lib (Some parse_failed)) good_cfg started
              (snd (insert_try (stub_lib (Some parse_failed)) (rag_object good_cfg)
                      {| content := paris; description := None |} started))
              (rag_object good_cfg) parse_failed started_ready eq_refl)
    as (Hi & _ & _ & Hs).
  split; [exact started_ready|]. split; [reflexivity|]. split; [exact Ht|].
  split; [exact (Hi _ Ht) | exact (Hs _)].
Defined.

(** ** The further properties at concrete inputs *)

Lemma good_complete : complete good_cfg.
Proof. repeat split; vm_compute; reflexivity. Qed.

Lemma made_succeeded (r : errno + gmap (list string) node) :
  succeeded r = true → r = inr (made r).
Proof. by destruct r. Qed.

Lemma storage_made :
  Path_mkdir (cwd fresh) (Path (WORKING_DIR good_cfg)) (disk (sys fresh)) = inr storage_disk.
Proof. apply made_succeeded. vm_compute; reflexivity. Qed.

Lemma uploads_made :
  Path_mkdir (cwd started) (upload_dir good_cfg) (disk (sys started)) = inr uploads_disk.
Proof. apply made_succeeded. vm_compute; reflexivity. Qed.

Lemma a_txt_opened :
  os_open_wb (cwd started) (file_path good_cfg "a.txt") uploads_disk
    = inr (a_txt, <[a_txt := NFile []]> uploads_disk).
Proof.
  unfold os_open_wb.
  assert (resolve (cwd started) uploads_disk (file_path good_cfg "a.txt") = inr a_txt) as ->
    by (vm_compute; reflexivity).
  assert (lookup_node uploads_disk a_txt = None) as -> by (vm_compute; reflexivity).
  reflexivity.
Qed.

Lemma startup_builds_instance_witness :
  complete good_cfg ∧
  fst (startup_event (stub_lib None) good_cfg fresh) = inr tt ∧
  rag_instance (snd (startup_event (stub_lib None) good_cfg fresh))
    = Some (rag_object good_cfg) ∧
  sys (snd (startup_event (stub_lib None) good_cfg fresh)) = exported_sys.
Proof.
  split; [exact good_complete|].
  destruct (startup_builds_instance (stub_lib None) good_cfg fresh storage_disk
              exported_sys exported_sys exported_sys good_complete storage_made
              eq_refl eq_refl eq_refl) as (H1 & H2 & H3 & _).
  split; [exact H1|]. split; [exact H2 | exact H3].
Defined.

Lemma startup_swallows_library_failure_witness :
  init_raises (offline_lib refused) good_cfg exported_sys refused ∧
  fst (startup_event (offline_lib refused) good_cfg fresh) = inr tt ∧
  rag_instance (snd (startup_event (offline_lib refused) good_cfg fresh)) = None.
Proof.
  assert (init_raises (offline_lib refused) good_cfg exported_sys refused) as Hr.
  { right; left. exists exported_sys, exported_sys. split; reflexivity. }
  split; [exact Hr|].
  destruct (startup_swallows_library_failure (offline_lib refused) good_cfg fresh
              storage_disk refused good_complete storage_made Hr) as (H1 & H2 & _).
  split; [exact H1 | exact H2].
Defined.

Lemma startup_stops_at_first_failure_witness :
  calls_of (new_events fresh (snd (startup_event (offline_lib refused) good_cfg fresh))) =
    [CLightRAG (lightrag_core good_cfg); CInitializeStorages (lightrag_core good_cfg)] ∧
  sys (snd (startup_event (offline_lib refused) good_cfg fresh)) = exported_sys.
Proof.
  destruct (startup_stops_at_first_failure (offline_lib refused) good_cfg fresh
              storage_disk refused exported_sys exported_sys good_complete storage_made)
    as [_ H].
  apply H; reflexivity.
Defined.

Lemma unavailable_never_ready_witness :
  LIGHTRAG_AVAILABLE no_lib_cfg = false ∧
  rag_instance (snd (startup_event (stub_lib None) no_lib_cfg fresh)) = None ∧
  calls_of (new_events fresh (snd (startup_event (stub_lib None) no_lib_cfg fresh))) = [] ∧
  rag_instance
    (snd (run (stub_lib None) no_lib_cfg
            [PostInsert {| content := paris; description := None |}; GetHealth]
            (snd (startup_event (stub_lib None) no_lib_cfg fresh)))) = None.
Proof.
  split; [reflexivity|].
  destruct (unavailable_never_ready (stub_lib None) no_lib_cfg fresh
              [PostInsert {| content := paris; description := None |}; GetHealth]
              eq_refl eq_refl) as (H1 & H2 & H3 & _).
  split; [exact H1|]. split; [exact H2 | exact H3].
Defined.

Lemma startup_exports_credentials_witness :
  init_keeps_environ (stub_lib None) ∧
  environ (sys (snd (startup_event (stub_lib None) good_cfg fresh))) !! "NEO4J_URI"
    = Some (NEO4J_URI good_cfg) ∧
  environ (sys (snd (startup_event (stub_lib None) good_cfg fresh))) !! "NEO4J_PASSWORD"
    = NEO4J_PASSWORD good_cfg.
Proof.
  assert (init_keeps_environ (stub_lib None)) as Hk.
  { split; [|split]; intros o s; reflexivity. }
  split; [exact Hk|].
  pose proof (startup_exports_credentials (stub_lib None) good_cfg fresh storage_disk
                good_complete storage_made Hk) as H.
  cbv zeta in H. destruct H as (H1 & _ & H3 & _).
  split; [exact H1 | exact H3].
Defined.

Lemma startup_keeps_existing_directory_witness :
  is_dir (cwd degraded) (Path (WORKING_DIR no_key_cfg)) (disk (sys degraded)) = true ∧
  fst (startup_event (stub_lib None) no_key_cfg degraded) = inr tt ∧
  disk (sys (snd (startup_event (stub_lib None) no_key_cfg degraded))) = disk (sys degraded).
Proof.
  assert (is_dir (cwd degraded) (Path (WORKING_DIR no_key_cfg)) (disk (sys degraded)) = true)
    as Hd by (vm_compute; reflexivity).
  split; [exact Hd|].
  exact (startup_keeps_existing_directory (stub_lib None) no_key_cfg degraded Hd
           no_key_missing).
Defined.

Lemma ready_never_503_witness :
  Forall (λ o, ∀ s d, o = HTTPError s d → s = 500%Z)
    (fst (run (stub_lib (Some parse_failed)) good_cfg
            [PostInsert {| content := paris; description := None |};
             GetHealth;
             PostQuery (QueryRequest_new "What is the capital of France?" None)]
            started)).
Proof.
  exact (ready_never_503 (stub_lib (Some parse_failed)) good_cfg
           [PostInsert {| content := paris; description := None |};
            GetHealth;
            PostQuery (QueryRequest_new "What is the capital of France?" None)]
           started (rag_object good_cfg) started_ready).
Defined.

Lemma informational_routes_read_only_witness :
  snd (run (stub_lib None) good_cfg [GetRoot; GetHealth; GetRoot] started) = started ∧
  Forall (λ o, ∃ d, o = Returned (Body d))
    (fst (run (stub_lib None) good_cfg [GetRoot; GetHealth; GetRoot] started)).
Proof.
  apply (informational_routes_read_only (stub_lib None) good_cfg
           [GetRoot; GetHealth; GetRoot] started).
  repeat constructor.
Defined.

Lemma one_library_call_per_request_witness :
  calls_of
    (new_events started
       (snd (serve (stub_lib None) good_cfg
               (PostInsert {| content := paris; description := None |}) started)))
    = [CAinsert paris].
Proof.
  exact (one_library_call_per_request (stub_lib None) good_cfg started (rag_object good_cfg)
           (PostInsert {| content := paris; description := None |}) started_ready).
Defined.

Lemma query_succeeds_iff_witness :
  ∃ resp,
    fst (query_content (stub_lib None)
           (QueryRequest_new "What is the capital of France?" None) started)
      = Returned resp.
Proof.
  destruct (query_succeeds_iff (stub_lib None) started (rag_object good_cfg)
              (QueryRequest_new "What is the capital of France?" None) started_ready)
    as [_ H].
  apply H. exists "Paris", "hybrid". split; reflexivity.
Defined.

Lemma query_answer_discarded_witness :
  (∃ fields,
     fst (query_content (stub_lib None) {| query := "capital?"; mode := None |} started)
       = HTTPError 500 (validation_message (stub_lib None) "QueryResponse" fields)) ∧
  sys (snd (query_content (stub_lib None) {| query := "capital?"; mode := None |} started))
    = sys started.
Proof.
  exact (query_answer_discarded (stub_lib None) started (rag_object good_cfg)
           {| query := "capital?"; mode := None |} (PStr "Paris") started_ready eq_refl
           (or_intror eq_refl)).
Defined.

Lemma upload_without_filename_witness :
  fst (upload_file (stub_lib None) good_cfg {| filename := None; read := inr hi |} started)
    = HTTPError 500 "unsupported operand type(s) for /: 'PosixPath' and 'NoneType'" ∧
  disk (sys (snd (upload_file (stub_lib None) good_cfg
                    {| filename := None; read := inr hi |} started))) = uploads_disk.
Proof.
  destruct (upload_without_filename (stub_lib None) good_cfg started (rag_object good_cfg)
              {| filename := None; read := inr hi |} uploads_disk started_ready eq_refl
              uploads_made) as (H1 & H2 & _).
  split; [exact H1 | exact H2].
Defined.

Lemma upload_read_failure_truncates_witness :
  fst (upload_file (stub_lib None) good_cfg broken_upload started)
    = HTTPError 500 "parse failed" ∧
  disk (sys (snd (upload_file (stub_lib None) good_cfg broken_upload started)))
    = <[a_txt := NFile []]> uploads_disk ∧
  <[a_txt := NFile []]> uploads_disk !! a_txt = Some (NFile []).
Proof.
  destruct (upload_read_failure_truncates (stub_lib None) good_cfg started
              (rag_object good_cfg) broken_upload "a.txt" uploads_disk
              (<[a_txt := NFile []]> uploads_disk) a_txt parse_failed
              started_ready eq_refl uploads_made a_txt_opened eq_refl eq_refl)
    as (H1 & H2 & H3 & _).
  split; [exact H1|]. split; [exact H2 | exact H3].
Defined.

Lemma upload_open_failure_reads_nothing_witness :
  os_open_wb (cwd started) (file_path good_cfg "sub/a.txt") uploads_disk = inl ENOENT ∧
  fst (upload_file (stub_lib None) good_cfg
         {| filename := Some "sub/a.txt"; read := inr hi |} started)
    = HTTPError 500 (exc_str (OSError ENOENT (str_path (file_path good_cfg "sub/a.txt")))) ∧
  disk (sys (snd (upload_file (stub_lib None) good_cfg
                    {| filename := Some "sub/a.txt"; read := inr hi |} started)))
    = uploads_disk.
Proof.
  assert (os_open_wb (cwd started) (file_path good_cfg "sub/a.txt") uploads_disk
          = inl ENOENT) as Ho by (vm_compute; reflexivity).
  split; [exact Ho|].
  destruct (upload_open_failure_reads_nothing (stub_lib None) good_cfg started
              (rag_object good_cfg) {| filename := Some "sub/a.txt"; read := inr hi |}
              "sub/a.txt" uploads_disk ENOENT started_ready eq_refl uploads_made Ho)
    as (H1 & H2 & _).
  split; [exact H1 | exact H2].
Defined.

Lemma startup_mkdir_failure_escapes_witness :
  Path_mkdir (cwd blocked) (Path (WORKING_DIR good_cfg)) (disk (sys blocked))
    = inl ENOTDIR ∧
  fst (startup_event (stub_lib None) good_cfg blocked)
    = inl (OSError ENOTDIR (str_path (Path (WORKING_DIR good_cfg)))) ∧
  rag_instance (snd (startup_event (stub_lib None) good_cfg blocked)) = rag_instance blocked.
Proof.
  assert (Path_mkdir (cwd blocked) (Path (WORKING_DIR good_cfg)) (disk (sys blocked))
          = inl ENOTDIR) as Hm by (vm_compute; reflexivity).
  split; [exact Hm|].
  destruct (startup_mkdir_failure_escapes (stub_lib None) good_cfg blocked ENOTDIR Hm)
    as (H1 & _ & H2 & _).
  split; [exact H1 | exact H2].
Defined.

Lemma insert_log_bounded_witness :
  ∃ snippet rest,
    new_events started
      (snd (insert_content (stub_lib None) {| content := paris; description := None |}
              started)) =
      [Call (CAinsert paris); Log INFO ("Inserted content: " +:+ snippet +:+ "...")] ∧
    paris = snippet +:+ rest ∧
    String.length snippet = 100 `min` String.length paris.
Proof.
  exact (insert_log_bounded (stub_lib None) started (rag_object good_cfg)
           {| content := paris; description := None |} started_ready eq_refl).
Defined.

Lemma export_then_reload_witness :
  NEO4J_URI (module_globals (export_to good_cfg ∅) 1536 true) = NEO4J_URI good_cfg ∧
  NEO4J_PASSWORD (module_globals (export_to good_cfg ∅) 1536 true)
    = NEO4J_PASSWORD good_cfg.
Proof.
  destruct good_complete as (_ & Hp & Hu & _).
  pose proof (export_then_reload good_cfg ∅ 1536 true Hp Hu) as H.
  cbv zeta in H. destruct H as (H1 & _ & H3 & _).
  split; [exact H1 | exact H3].
Defined.

Lemma absolute_name_replaces_upload_dir_witness :
  file_path good_cfg "/tmp/x.txt" = Path "/tmp/x.txt".
Proof.
  apply (absolute_name_replaces_upload_dir good_cfg "/tmp/x.txt"). discriminate.
Defined.

Lemma upload_writes_then_parses_witness :
  os_write a_txt hi (<[a_txt := NFile []]> uploads_disk) !! a_txt = Some (NFile hi) ∧
  fst (upload_file (stub_lib None) good_cfg
         {| filename := Some "a.txt"; read := inr hi |} started)
    = Returned [("status", JStr "success");
                ("message", JStr ("File " +:+ "a.txt" +:+ " processed successfully"));
                ("filename", JStr "a.txt");
                ("size", JInt (Z.of_nat (length hi)))].
Proof.
  pose proof (upload_writes_then_parses (stub_lib None) good_cfg started
                (rag_object good_cfg) {| filename := Some "a.txt"; read := inr hi |}
                "a.txt" hi uploads_disk (<[a_txt := NFile []]> uploads_disk) a_txt
                started_ready eq_refl eq_refl uploads_made a_txt_opened) as H.
  cbv zeta in H. destruct H as (H1 & _ & _ & H4).
  split; [exact H1 | exact H4].
Defined.

Lemma plain_name_stays_in_uploads_witness :
  plain_name "a.txt" ∧
  ∃ d, resolve (cwd started) uploads_disk (Path (WORKING_DIR good_cfg)) = inr d ∧
       a_txt = d ++ ["uploads"; "a.txt"].
Proof.
  assert (plain_name "a.txt") as Hp by (repeat split; discriminate).
  split; [exact Hp|].
  exact (plain_name_stays_in_uploads good_cfg (cwd started) a_txt uploads_disk
           (<[a_txt := NFile []]> uploads_disk) "a.txt" Hp a_txt_opened).
Defined.

Lemma health_reports_startup_witness :
  health_check good_cfg (snd (startup_event (stub_lib None) good_cfg fresh)) =
    [("status", JStr "healthy");
     ("rag_initialized", JBool true);
     ("neo4j_uri", JStr (NEO4J_URI good_cfg));
     ("lightrag_available", JBool true)].
Proof.
  destruct (health_reports_startup (stub_lib None) good_cfg fresh storage_disk
              good_complete storage_made eq_refl) as [_ H].
  apply H. exists exported_sys, exported_sys, exported_sys. repeat split.
Defined.

Lemma insert_ignores_description_witness :
  insert_content (stub_lib None) {| content := paris; description := None |} started
    = insert_content (stub_lib None)
        {| content := paris; description := Some "geography" |} started.
Proof.
  apply (insert_ignores_description (stub_lib None) started). reflexivity.
Defined.
